(** * tortoise_typer.model_typer: a shallow embedding

  The Python module [tortoise_typer/model_typer.py] builds a command-line
  interface (list / show / create / edit / delete) for one Tortoise ORM
  model.  This file embeds the module function by function and proves
  properties of the field-type mapper, of the synthesized signatures and of
  the five command handlers.

  Layout: Python values and strings; dictionaries; the library objects the
  module consumes (fields, models, [inspect], typer markers); exceptions and
  the effect monad; the persistence layer and the console; then the module
  itself, and finally the theorems. *)

From Stdlib Require Import ZArith Ascii.
From stdpp Require Import base strings list gmap pretty.

Local Open Scope Z_scope.

(** ** Python values *)

(** The values a model attribute or a command-line argument can hold.  A
  timestamp or a date is carried by its [str()] rendering, the only thing the
  module ever does with one. *)
Inductive py_value :=
| VNone
| VBool (b : bool)
| VInt (n : Z)
| VStr (s : string)
| VDatetime (iso : string)
| VDate (iso : string).

Global Instance py_value_eq_dec : EqDecision py_value.
Proof. solve_decision. Defined.

(** [v is None] *)
Definition is_None (v : py_value) : bool :=
match v with VNone => true | _ => false end.

(** [str(v)], which is also what an f-string field [{v}] expands to. *)
Definition py_str (v : py_value) : string :=
match v with
| VNone => "None"
| VBool true => "True"
| VBool false => "False"
| VInt n => pretty n
| VStr s => s
| VDatetime iso => iso
| VDate iso => iso
end.

(** ** Strings *)

Definition newline : string := String (ascii_of_nat 10) EmptyString.

(** [sep.join(parts)] *)
Fixpoint join (sep : string) (parts : list string) : string :=
match parts with
| [] => ""
| [s] => s
| s :: rest => s +:+ sep +:+ join sep rest
end.

Definition upper_ascii (c : ascii) : ascii :=
let n := nat_of_ascii c in
if ((97 <=? n)%nat && (n <=? 122)%nat)%bool then ascii_of_nat (n - 32) else c.

(** [s.upper()] on the ASCII letters; other characters are left as they are. *)
Fixpoint upper (s : string) : string :=
match s with
| EmptyString => EmptyString
| String c rest => String (upper_ascii c) (upper rest)
end.

(** ** Dictionaries

  A Python [dict] keeps its keys in insertion order and holds each key once:
  an association list whose keys are pairwise distinct ([PyDict.wf]). *)
Module PyDict.

Definition t (V : Type) := list (string * V).

Definition keys {V} (d : t V) : list string := d.*1.

Definition wf {V} (d : t V) : Prop := NoDup (keys d).

(** [d.copy()]: a new dictionary with the same items. *)
Definition copy {V} (d : t V) : t V := d.

(** [d.get(k)] *)
Fixpoint get {V} (k : string) (d : t V) : option V :=
  match d with
  | [] => None
  | (k', v) :: rest => if decide (k' = k) then Some v else get k rest
  end.

(** [d.pop(k)]: the value stored under [k] and the dictionary without that
    key, or [None] where Python raises [KeyError]. *)
Fixpoint pop {V} (k : string) (d : t V) : option (V * t V) :=
  match d with
  | [] => None
  | (k', v) :: rest =>
      if decide (k' = k) then Some (v, rest)
      else match pop k rest with
           | Some (x, rest') => Some (x, (k', v) :: rest')
           | None => None
           end
  end.

End PyDict.

(** ** Exceptions *)

Inductive exn :=
| DoesNotExist
| TypeError (msg : string)
| AttributeError (msg : string)
| KeyError (key : string)
| ValueError (msg : string)
| OperationalError (msg : string).

Global Instance exn_eq_dec : EqDecision exn.
Proof. solve_decision. Defined.

Inductive result (A : Type) :=
| Ok (a : A)
| Raise (e : exn).
Arguments Ok {A} a.
Arguments Raise {A} e.

(** ** Type objects

  What an annotation can evaluate to in this module.  The module imports the
  class with [from datetime import datetime], so the name [datetime] denotes
  the class [datetime.datetime]; an attribute of that class which is one of
  its methods evaluates to a method descriptor, which is not a type. *)
Inductive py_object :=
| py_int
| py_bool
| py_str_type
| py_datetime
| py_date
| py_method (owner : py_object) (attr : string).

Global Instance py_object_eq_dec : EqDecision py_object.
Proof. solve_decision. Defined.

(** [isinstance(o, type)] *)
Definition is_type (o : py_object) : bool :=
match o with
| py_method _ _ => false
| _ => true
end.

(** The five scalar types of the command line. *)
Definition scalar_types : list py_object :=
[py_int; py_bool; py_datetime; py_date; py_str_type].

(** [datetime.<attr>] with [datetime] the class imported at line 2.  The class
  [datetime.datetime] has a method [date()] (the date part of a timestamp). *)
Definition datetime_getattr (attr : string) : py_object :=
py_method py_datetime attr.

(** ** Tortoise fields *)
Module fields.

(** The class of a field object, as far as the [isinstance] tests of the
    mapper can tell. *)
Inductive field_class :=
| IntField
| BooleanField
| DatetimeField
| DateField
| OtherField (cls : string).

Global Instance field_class_eq_dec : EqDecision field_class.
Proof. solve_decision. Defined.

(** [auto_now] and [auto_now_add] exist on some field classes only:
    [None] is an absent attribute. *)
Record Field := {
  cls : field_class;
  pk : bool;
  null : bool;
  default : py_value;
  auto_now : option bool;
  auto_now_add : option bool
}.

Definition isinstance (f : Field) (c : field_class) : bool :=
  bool_decide (cls f = c).

(** [hasattr(field, a) and field.a] *)
Definition hasattr_and (a : option bool) : bool :=
  match a with Some b => b | None => false end.

End fields.

(** ** typer markers and [inspect] signatures *)
Module typer.

(** The first argument of [Argument(...)] and [Option(...)]: the literal
    [...] marks a required parameter, [None] an optional one. *)
Inductive marker := Ellipsis | PyNone.

Inductive info :=
| Argument (default : marker) (help : option string)
| Option (default : marker).

Global Instance marker_eq_dec : EqDecision marker.
Proof. solve_decision. Defined.
Global Instance info_eq_dec : EqDecision info.
Proof. solve_decision. Defined.

Definition info_default (i : info) : marker :=
  match i with Argument d _ => d | Option d => d end.

End typer.

Module inspect.

Inductive kind :=
| POSITIONAL_ONLY
| POSITIONAL_OR_KEYWORD
| VAR_POSITIONAL
| KEYWORD_ONLY
| VAR_KEYWORD.

Global Instance kind_eq_dec : EqDecision kind.
Proof. solve_decision. Defined.

Definition kind_rank (k : kind) : nat :=
  match k with
  | POSITIONAL_ONLY => 0
  | POSITIONAL_OR_KEYWORD => 1
  | VAR_POSITIONAL => 2
  | KEYWORD_ONLY => 3
  | VAR_KEYWORD => 4
  end.

(** [inspect.Parameter] ([Parameter] is a reserved word of the prover). *)
Record Param := {
  name : string;
  kind_of : kind;
  default : typer.info;
  annotation : py_object
}.

Global Instance Param_eq_dec : EqDecision Param.
Proof. solve_decision. Defined.

(** The loop of [Signature.__init__]: parameter kinds may not decrease and
    no name may occur twice.  (Its third test, a parameter without default
    after one with a default, never fires here: every parameter of this
    module is built with a default.) *)
Fixpoint validate (top_kind : kind) (params : list string)
    (parameters : list Param) : result unit :=
  match parameters with
  | [] => Ok tt
  | param :: rest =>
      if (kind_rank (kind_of param) <? kind_rank top_kind)%nat
      then Raise (ValueError "wrong parameter order")
      else if bool_decide (name param ∈ params)
      then Raise (ValueError ("duplicate parameter name: " +:+ name param))
      else validate (kind_of param) (params ++ [name param]) rest
  end.

(** [Signature(parameters)] *)
Definition Signature (parameters : list Param) : result (list Param) :=
  match validate POSITIONAL_ONLY [] parameters with
  | Ok _ => Ok parameters
  | Raise e => Raise e
  end.

End inspect.

(** ** Models and the objects handed to the application *)
Module models.

(** A model class: its name, its field mapping [_meta.fields_map] in declared
    order, and its [__str__]. *)
Record Model := {
  __name__ : string;
  __repr__ : string;
  fields_map : PyDict.t fields.Field;
  __str__ : gmap string py_value → string
}.

End models.

(** What an integrator can pass to [ModelTyper(...)]. *)
Inductive supplied :=
| ModelClass (m : models.Model)
| OtherClass (name repr : string)
| NamedObject (name : string)
| PlainObject (type_name : string).

(** [o.__name__]: classes, functions and modules have one; an integer, a
    string or a model instance has none. *)
Definition getattr___name__ (o : supplied) : result string :=
  match o with
  | ModelClass m => Ok (models.__name__ m)
  | OtherClass n _ => Ok n
  | NamedObject n => Ok n
  | PlainObject ty =>
      Raise (AttributeError ("'" +:+ ty +:+ "' object has no attribute '__name__'"))
  end.

(** [issubclass(o, models.Model)]: [Some m] is [True], with the class seen as
    a model; [None] is [False]; the builtin raises on a non-class. *)
Definition issubclass_Model (o : supplied) : result (option models.Model) :=
  match o with
  | ModelClass m => Ok (Some m)
  | OtherClass _ _ => Ok None
  | NamedObject _ | PlainObject _ => Raise (TypeError "issubclass() arg 1 must be a class")
  end.

(** [str(o)] of a class *)
Definition supplied_str (o : supplied) : string :=
  match o with
  | ModelClass m => models.__repr__ m
  | OtherClass _ r => r
  | NamedObject n => n
  | PlainObject ty => ty
  end.

(** ** The world: store, persistence trace and console *)

(** A model instance is its attribute dictionary. *)
Abbreviation instance := (gmap string py_value).

Inductive db_call :=
| DbCreate (kwargs : PyDict.t py_value)
| DbGet (id : py_value)
| DbAll
| DbSave (id : py_value)
| DbDelete (id : py_value).

Inductive output :=
| Panel (title border_style message : string)
| Table (title : string) (rows : list (string * string)).

Record world := {
  store : gmap Z instance;
  next_id : Z;
  db_log : list db_call;
  console : list output
}.

Definition empty_world : world :=
  {| store := ∅; next_id := 1; db_log := []; console := [] |}.

(** Computations of the handlers: they read and write the world and either
    return a value or raise; what was done before a raise stays done. *)
Definition M (A : Type) : Type := world → result A * world.

Definition ret {A} (a : A) : M A := λ w, (Ok a, w).

Definition raise {A} (e : exn) : M A := λ w, (Raise e, w).

Definition bind {A B} (c : M A) (k : A → M B) : M B := λ w,
  match c w with
  | (Ok a, w') => k a w'
  | (Raise e, w') => (Raise e, w')
  end.

Notation "'let*' x ':=' c 'in' k" := (bind c (λ x, k))
  (at level 10, x name, c at level 100, k at level 200).
Notation "c ';;' k" := (bind c (λ _, k))
  (at level 100, k at level 200, right associativity).

(** [try: body / except DoesNotExist: handler] *)
Definition try_except_DoesNotExist {A} (body handler : M A) : M A := λ w,
  match body w with
  | (Raise DoesNotExist, w') => handler w'
  | r => r
  end.

Fixpoint mapM {A B} (f : A → M B) (l : list A) : M (list B) :=
  match l with
  | [] => ret []
  | a :: rest => let* b := f a in let* bs := mapM f rest in ret (b :: bs)
  end.

(** [asyncio.run(coro)]: the coroutine runs to completion before the call
    returns; its result or its exception is the call's. *)
Definition asyncio_run {A} (coro : M A) : M A := coro.

Definition log_call (c : db_call) : M unit := λ w,
  (Ok tt, {| store := store w; next_id := next_id w;
             db_log := db_log w ++ [c]; console := console w |}).

Definition set_store (f : gmap Z instance → gmap Z instance) : M unit := λ w,
  (Ok tt, {| store := f (store w); next_id := next_id w;
             db_log := db_log w; console := console w |}).

Definition print (o : output) : M unit := λ w,
  (Ok tt, {| store := store w; next_id := next_id w;
             db_log := db_log w; console := console w ++ [o] |}).

(** ** The persistence layer

    Tortoise ORM is a collaborator of the module, not part of it.  It is
    modelled by the interface the module consumes: [create], [get(id=...)]
    raising [DoesNotExist], [all()], and [save()] and [delete()] on an instance.
    Rows are keyed by their integer ["id"] attribute; every call is recorded in
    [db_log].  What the layer does to stored values on its own account (the
    timestamps of [auto_now] and [auto_now_add] fields, conversions on load)
    is outside the model. *)
Module orm.

Definition instance_id (inst : instance) : py_value :=
  default VNone (inst !! "id").

(** The constructor of a model goes through the supplied items in order and
    refuses [None] for a field that is not nullable: the key it stops at. *)
Fixpoint refused (fm : PyDict.t fields.Field) (kwargs : PyDict.t py_value)
    : option string :=
  match kwargs with
  | [] => None
  | (key, value) :: rest =>
      match value, PyDict.get key fm with
      | VNone, Some field =>
          if fields.null field then refused fm rest else Some key
      | _, _ => refused fm rest
      end
  end.

(** [Model.create] on keyword fields: [ValueError] and no row when the
    constructor refuses them; otherwise a new row under a fresh id, holding
    the supplied values, and the fields' defaults under the keys not
    supplied. *)
Definition create (m : models.Model) (kwargs : PyDict.t py_value) : M instance := λ w,
  match refused (models.fields_map m) kwargs with
  | Some key =>
      (Raise (ValueError (key +:+ " is non nullable field, but null was passed")),
       {| store := store w; next_id := next_id w;
          db_log := db_log w ++ [DbCreate kwargs]; console := console w |})
  | None =>
      let i := next_id w in
      let inst : instance :=
        <["id" := VInt i]>
          (list_to_map kwargs ∪ (fields.default <$> list_to_map (models.fields_map m))) in
      (Ok inst, {| store := <[i := inst]> (store w); next_id := i + 1;
                   db_log := db_log w ++ [DbCreate kwargs]; console := console w |})
  end.

(** [Model.get(id=v)]: the row whose id is [v], or [DoesNotExist]; a value
    that is no integer matches no row. *)
Definition get (v : py_value) : M instance :=
  log_call (DbGet v) ;;
  λ w, match v with
       | VInt i =>
           match store w !! i with
           | Some inst => (Ok inst, w)
           | None => (Raise DoesNotExist, w)
           end
       | _ => (Raise DoesNotExist, w)
       end.

(** [Model.all()] *)
Definition all : M (list instance) :=
  log_call DbAll ;;
  λ w, (Ok (map_to_list (store w)).*2, w).

(** [instance.save()] *)
Definition save (inst : instance) : M unit :=
  log_call (DbSave (instance_id inst)) ;;
  match instance_id inst with
  | VInt i => set_store (λ s, <[i := inst]> s)
  | _ => raise (OperationalError "instance has no integer id")
  end.

(** [instance.delete()] *)
Definition delete (inst : instance) : M unit :=
  log_call (DbDelete (instance_id inst)) ;;
  match instance_id inst with
  | VInt i => set_store (λ s, base.delete i s)
  | _ => raise (OperationalError "instance has no integer id")
  end.

End orm.

(** ** Presentation helpers (lines 14-62) *)

(** [_make_panel_printer(title, border_style)] returns the printer. *)
Definition _make_panel_printer (title border_style : string) : string → M unit :=
  λ message, print (Panel title border_style message).

Fixpoint enumerate {A} (start : Z) (l : list A) : list (Z * A) :=
  match l with
  | [] => []
  | a :: rest => (start, a) :: enumerate (start + 1) rest
  end.

Definition listing (str : instance → string) (title : string)
    (instances : list instance) : M unit :=
  print (Table title ((λ '(i, inst), (pretty i, str inst)) <$> enumerate 1 instances)).

Definition error : string → M unit := _make_panel_printer "Error" "red".
Definition warning : string → M unit := _make_panel_printer "Warning" "yellow".
Definition info : string → M unit := _make_panel_printer "Info" "white".

(** ** Callables and the command table *)

(** The three shapes of handler the module registers. *)
Inductive callback :=
| NoArguments (f : M unit)
| ById (f : Z → M unit)
| Keywords (f : PyDict.t py_value → M unit).

(** A function object: its body and the [__signature__] attribute, absent
    until something assigns it. *)
Record callable := {
  body : callback;
  __signature__ : option (list inspect.Param)
}.

Definition def (f : callback) : callable :=
  {| body := f; __signature__ := None |}.

Record command_info := {
  command_name : string;
  help : string;
  callback_of : callable
}.

(** A [Typer] application, as far as the module touches it: the table of
    registered commands. *)
Definition Typer := list command_info.

(** [self.command(name=..., help=...)(f)] *)
Definition command (self : Typer) (name help : string) (f : callable) : Typer :=
  self ++ [{| command_name := name; help := help; callback_of := f |}].

(** When the annotations of a [def] statement are evaluated: as the statement
    runs (CPython before 3.14), or only on demand (CPython from 3.14 on). *)
Inductive annotations := Eager | Deferred.

(** ** class ModelTyper (lines 65-237) *)
Module ModelTyper.

(** Lines 80-91. *)
Definition _get_field_type (field : fields.Field) : py_object :=
  if fields.isinstance field fields.IntField then py_int
  else if fields.isinstance field fields.BooleanField then py_bool
  else if fields.isinstance field fields.DatetimeField then py_datetime
  else if fields.isinstance field fields.DateField then datetime_getattr "date"
  else py_str_type.

(** The identifier parameter of lines 102-109. *)
Definition id_parameter : inspect.Param :=
  {| inspect.name := "id";
     inspect.kind_of := inspect.POSITIONAL_ONLY;
     inspect.default := typer.Argument typer.Ellipsis (Some "ID of the instance");
     inspect.annotation := py_int |}.

(** The test of lines 113-117. *)
Definition skipped (field : fields.Field) : bool :=
  fields.pk field
  || fields.hasattr_and (fields.auto_now field)
  || fields.hasattr_and (fields.auto_now_add field).

(** Lines 120-124. *)
Definition is_required (field : fields.Field) (force_optional : bool) : bool :=
  negb (fields.null field)
  && is_None (fields.default field)
  && negb force_optional.

(** The loop of lines 111-133 over the remaining items of the field mapping,
    with the list [parameters] as it stands. *)
Fixpoint for_fields (items : PyDict.t fields.Field) (force_optional : bool)
    (parameters : list inspect.Param) : list inspect.Param :=
  match items with
  | [] => parameters
  | (name, field) :: rest =>
      let param_type := _get_field_type field in
      if skipped field then for_fields rest force_optional parameters
      else
        let parameters' := parameters ++
          [{| inspect.name := name;
              inspect.kind_of := inspect.KEYWORD_ONLY;
              inspect.default :=
                typer.Option (if is_required field force_optional
                              then typer.Ellipsis else typer.PyNone);
              inspect.annotation := param_type |}] in
        for_fields rest force_optional parameters'
  end.

(** The list [parameters] when line 135 is reached. *)
Definition parameters_at_135 (model : models.Model)
    (force_optional add_id_argument : bool) : list inspect.Param :=
  let parameters := [] in
  let parameters := if add_id_argument then parameters ++ [id_parameter] else parameters in
  for_fields (models.fields_map model) force_optional parameters.

(** Lines 93-137. *)
Definition _inject_model_signature (model : models.Model) (func : callable)
    (force_optional add_id_argument : bool) : result callable :=
  match inspect.Signature (parameters_at_135 model force_optional add_id_argument) with
  | Ok sig => Ok {| body := body func; __signature__ := Some sig |}
  | Raise e => Raise e
  end.

(** [getattr(instance, field)] *)
Definition getattr (inst : instance) (field : string) : M py_value :=
  match inst !! field with
  | Some v => ret v
  | None => raise (AttributeError ("object has no attribute '" +:+ field +:+ "'"))
  end.

(** Lines 156-160. *)
Definition _show (model : models.Model) (inst : instance) : M unit :=
  let* lines :=
    mapM (λ field, let* v := getattr inst field in
                   ret ("* " +:+ field +:+ ": " +:+ py_str v))
         (PyDict.keys (models.fields_map model)) in
  info (join newline lines).

(** Lines 162-169. *)
Definition create (model : models.Model) (kwargs : PyDict.t py_value) : M unit :=
  let acreate : M instance :=
    let* inst := orm.create model kwargs in
    orm.save inst ;;
    ret inst in
  let* inst := asyncio_run acreate in
  _show model inst.

(** The loop of lines 177-179. *)
Fixpoint for_items (items : PyDict.t py_value) (inst : instance) : instance :=
  match items with
  | [] => inst
  | (key, value) :: rest =>
      if is_None value then for_items rest inst
      else for_items rest (<[key := value]> inst)
  end.

(** Lines 171-184. *)
Definition edit (model : models.Model) (kwargs : PyDict.t py_value) : M unit :=
  let args := PyDict.copy kwargs in
  let aedit : M instance :=
    match PyDict.pop "id" args with
    | None => raise (KeyError "id")
    | Some (id, args) =>
        let* inst := orm.get id in
        let inst := for_items args inst in
        orm.save inst ;;
        ret inst
    end in
  let* inst := asyncio_run aedit in
  _show model inst.

(** Lines 197-207. *)
Definition show (model : models.Model) (name : string) (id : Z) : M unit :=
  let ashow : M instance := orm.get (VInt id) in
  let* found :=
    try_except_DoesNotExist
      (let* inst := asyncio_run ashow in ret (Some inst))
      (error (name +:+ " with ID " +:+ pretty id +:+ " not found.") ;; ret None) in
  match found with
  | None => ret tt
  | Some inst => _show model inst
  end.

(** Lines 209-218. *)
Definition delete (model : models.Model) (name : string) (id : Z) : M unit :=
  let adelete : M unit :=
    let* inst := orm.get (VInt id) in
    orm.delete inst in
  try_except_DoesNotExist
    (asyncio_run adelete ;;
     info (name +:+ " with ID " +:+ pretty id +:+ " deleted successfully."))
    (error (name +:+ " with ID " +:+ pretty id +:+ " not found.")).

(** Lines 186-195 under either treatment.  The return annotation of [alist]
    (line 187) is [list[model]], and inside the handler the name [list] is
    the handler itself, a local of [_add_model_methods], not the builtin:
    evaluating the annotation subscripts a function, which raises
    [TypeError]. *)
Definition list_under (a : annotations) (model : models.Model) (name : string)
    : M unit :=
  let def_alist : M (M (list instance)) :=
    match a with
    | Eager => raise (TypeError "'function' object is not subscriptable")
    | Deferred => ret orm.all
    end in
  let* alist := def_alist in
  let* instances := asyncio_run alist in
  match instances with
  | [] => warning ("No " +:+ name +:+ " instances found.")
  | _ => listing (models.__str__ model) name instances
  end.

(** The handler as registered, with the annotations evaluated as the [def]
    runs. *)
Definition list (model : models.Model) (name : string) : M unit :=
  list_under Eager model name.

(** Lines 139-237.  The handlers are closures over [model] and [name]; each
    [self.command(...)(f)] appends to the command table, and an exception
    leaves the table as it stands. *)
Definition _add_model_methods (self : Typer) (model : supplied) : result unit * Typer :=
  match getattr___name__ model with
  | Raise e => (Raise e, self)
  | Ok n =>
  let name := upper n in
  match issubclass_Model model with
  | Raise e => (Raise e, self)
  | Ok None =>
      (Raise (TypeError ("The model " +:+ supplied_str model +:+
                         " is not a subclass of tortoise.models.Model")), self)
  | Ok (Some m) =>
  let self := command self "list" ("List all " +:+ name +:+ " instances.")
                (def (NoArguments (list m name))) in
  let self := command self "delete" ("Delete a specific " +:+ name +:+ " instance.")
                (def (ById (delete m name))) in
  let self := command self "show" ("Show a specific " +:+ name +:+ " instance.")
                (def (ById (show m name))) in
  match _inject_model_signature m (def (Keywords (create m))) false false with
  | Raise e => (Raise e, self)
  | Ok create' =>
  let self := command self "create" ("Create a new " +:+ name +:+ " instance.") create' in
  match _inject_model_signature m (def (Keywords (edit m))) true true with
  | Raise e => (Raise e, self)
  | Ok edit' =>
  let self := command self "edit" ("Edit an existing " +:+ name +:+ " instance.") edit' in
  (Ok tt, self)
  end end end end.

(** Lines 76-78: [super().__init__()] yields an application without commands. *)
Definition __init__ (model : supplied) : result unit * Typer :=
  let self : Typer := [] in
  _add_model_methods self model.

End ModelTyper.

(** ** A sample model: Task(id pk, title, done, created) *)

Definition mk_field (c : fields.field_class) (pk null : bool) (default : py_value)
    (auto_now auto_now_add : option bool) : fields.Field :=
  {| fields.cls := c; fields.pk := pk; fields.null := null;
     fields.default := default;
     fields.auto_now := auto_now; fields.auto_now_add := auto_now_add |}.

Definition Task_id : fields.Field :=
  mk_field fields.IntField true false VNone None None.
Definition Task_title : fields.Field :=
  mk_field (fields.OtherField "CharField") false false VNone None None.
Definition Task_done : fields.Field :=
  mk_field fields.BooleanField false false (VBool false) None None.
Definition Task_due : fields.Field :=
  mk_field fields.DateField false true VNone None None.
Definition Task_created : fields.Field :=
  mk_field fields.DatetimeField false false VNone (Some false) (Some true).

Definition Task : models.Model :=
  {| models.__name__ := "Task";
     models.__repr__ := "<class 'app.Task'>";
     models.fields_map :=
       [("id", Task_id); ("title", Task_title); ("done", Task_done);
        ("due", Task_due); ("created", Task_created)];
     models.__str__ := λ inst, "<Task>" |}.

Definition task1 : instance :=
  {[ "id" := VInt 1; "title" := VStr "buy milk"; "done" := VBool false;
     "due" := VNone; "created" := VDatetime "2024-01-01 10:00:00" ]}.

Definition one_task : world :=
  {| store := {[ 1 := task1 ]}; next_id := 2; db_log := []; console := [] |}.

(** ** Vocabulary of the statements *)

(** The parameter line 126-133 builds for a retained field. *)
Definition keyword_parameter (name : string) (field : fields.Field)
    (force_optional : bool) : inspect.Param :=
  {| inspect.name := name;
     inspect.kind_of := inspect.KEYWORD_ONLY;
     inspect.default :=
       typer.Option (if ModelTyper.is_required field force_optional
                     then typer.Ellipsis else typer.PyNone);
     inspect.annotation := ModelTyper._get_field_type field |}.

(** The world after a handler ran: the store it left, the persistence calls it
    added and what it printed. *)
Definition evolve (w : world) (st : gmap Z instance) (id' : Z)
    (calls : list db_call) (outs : list output) : world :=
  {| store := st; next_id := id';
     db_log := db_log w ++ calls; console := console w ++ outs |}.

(** The instance has every field of the model as an attribute, as the
    instances the persistence layer hands out do. *)
Definition has_fields (model : models.Model) (inst : instance) : Prop :=
  Forall (λ field, is_Some (inst !! field)) (PyDict.keys (models.fields_map model)).

Definition show_line (inst : instance) (field : string) : string :=
  "* " +:+ field +:+ ": " +:+ py_str (default VNone (inst !! field)).

(** What [_show] prints: one line per field of the model, in the order of the
    field mapping. *)
Definition rendering (model : models.Model) (inst : instance) : string :=
  join newline (show_line inst <$> PyDict.keys (models.fields_map model)).

(** The name the handlers print: line 149. *)
Definition MODEL (model : models.Model) : string := upper (models.__name__ model).

(** The claim of a single persistence call: the handler adds one entry to the
    persistence trace. *)
Definition single_persistence_call (before after : world) : Prop :=
  ∃ c, db_log after = db_log before ++ [c].

(** The items of the field mapping that get a parameter, in declared order. *)
Definition retained (model : models.Model) : list (string * fields.Field) :=
  filter (λ item : string * fields.Field, ModelTyper.skipped item.2 = false)
    (models.fields_map model : list (string * fields.Field)).

(** The five entries of the command table of a model, as lines 220-237
    register them. *)
Definition command_table (m : models.Model) : Typer :=
  [ {| command_name := "list";
       help := "List all " +:+ MODEL m +:+ " instances.";
       callback_of := def (NoArguments (ModelTyper.list m (MODEL m))) |};
    {| command_name := "delete";
       help := "Delete a specific " +:+ MODEL m +:+ " instance.";
       callback_of := def (ById (ModelTyper.delete m (MODEL m))) |};
    {| command_name := "show";
       help := "Show a specific " +:+ MODEL m +:+ " instance.";
       callback_of := def (ById (ModelTyper.show m (MODEL m))) |};
    {| command_name := "create";
       help := "Create a new " +:+ MODEL m +:+ " instance.";
       callback_of :=
         {| body := Keywords (ModelTyper.create m);
            __signature__ := Some (ModelTyper.parameters_at_135 m false false) |} |};
    {| command_name := "edit";
       help := "Edit an existing " +:+ MODEL m +:+ " instance.";
       callback_of :=
         {| body := Keywords (ModelTyper.edit m);
            __signature__ := Some (ModelTyper.parameters_at_135 m true true) |} |} ].

(** A second sample model: its primary key is [key], and it has an ordinary
    field named [id]. *)
Definition Ledger : models.Model :=
  {| models.__name__ := "Ledger";
     models.__repr__ := "<class 'app.Ledger'>";
     models.fields_map :=
       [("key", mk_field fields.IntField true false VNone None None);
        ("id", mk_field fields.IntField false false VNone None None);
        ("note", mk_field (fields.OtherField "TextField") false true VNone None None)];
     models.__str__ := λ inst, "<Ledger>" |}.

(** * Properties *)

Ltac in_list := repeat first [apply list_elem_of_here | apply list_elem_of_further].
Ltac by_decide := apply (bool_decide_unpack _); vm_compute; exact I.

(** ** The field-type mapper *)

(** On the four kinds other than dates the mapper returns the matching scalar
    type, and text for every other field class. *)
Lemma _get_field_type_cases (field : fields.Field) :
  ModelTyper._get_field_type field =
    match fields.cls field with
    | fields.IntField => py_int
    | fields.BooleanField => py_bool
    | fields.DatetimeField => py_datetime
    | fields.DateField => py_method py_datetime "date"
    | fields.OtherField _ => py_str_type
    end.
Proof.
  unfold ModelTyper._get_field_type, fields.isinstance.
  destruct (fields.cls field); reflexivity.
Qed.

Lemma _get_field_type_scalar_unless_date (field : fields.Field) :
  fields.cls field ≠ fields.DateField →
  ModelTyper._get_field_type field ∈ scalar_types
  ∧ is_type (ModelTyper._get_field_type field) = true.
Proof.
  intros Hne. rewrite _get_field_type_cases. unfold scalar_types.
  destruct (fields.cls field); try congruence; split; try reflexivity;
    repeat first [apply list_elem_of_here | apply list_elem_of_further].
Qed.

(** C3, at a date field: the mapper returns the attribute [date] of the class
    [datetime.datetime], a method, which is neither a type nor one of the five
    scalar types. *)
Theorem get_field_type_date_field :
  ModelTyper._get_field_type Task_due = py_method py_datetime "date"
  ∧ is_type (ModelTyper._get_field_type Task_due) = false
  ∧ (ModelTyper._get_field_type Task_due ∉ scalar_types)
  ∧ ModelTyper._get_field_type Task_due ≠ py_date.
Proof.
  split_and!; [reflexivity|reflexivity| |discriminate].
  cbn. unfold scalar_types. intros H.
  repeat (apply elem_of_cons in H as [H|H]; [discriminate|]).
  inversion H.
Qed.

(** ** The signature synthesizer *)

Lemma for_fields_acc items fo ps :
  ModelTyper.for_fields items fo ps = ps ++ ModelTyper.for_fields items fo [].
Proof.
  revert ps. induction items as [|[name field] rest IH]; intros ps; cbn.
  - by rewrite app_nil_r.
  - destruct (ModelTyper.skipped field); [apply IH|].
    rewrite (IH (ps ++ _)), (IH [_]). by rewrite <- app_assoc.
Qed.

Lemma for_fields_cons name field rest fo :
  ModelTyper.for_fields ((name, field) :: rest) fo [] =
    if ModelTyper.skipped field then ModelTyper.for_fields rest fo []
    else keyword_parameter name field fo :: ModelTyper.for_fields rest fo [].
Proof.
  cbn. destruct (ModelTyper.skipped field); [done|].
  by rewrite for_fields_acc.
Qed.

(** Every parameter of the loop comes from a retained item of the mapping. *)
Lemma elem_of_for_fields items fo p :
  p ∈ ModelTyper.for_fields items fo [] ↔
  ∃ name field, (name, field) ∈ items ∧ ModelTyper.skipped field = false
                ∧ p = keyword_parameter name field fo.
Proof.
  induction items as [|[name field] rest IH].
  - cbn. split; [intros H; inversion H|intros (?&?&H&_); inversion H].
  - rewrite for_fields_cons. destruct (ModelTyper.skipped field) eqn:Hs.
    + rewrite IH. split.
      * intros (n&f&Hin&Hf&->). exists n, f. split_and!; [by right|done..].
      * intros (n&f&Hin&Hf&->). apply elem_of_cons in Hin as [Heq|Hin].
        -- simplify_eq. congruence.
        -- by exists n, f.
    + rewrite elem_of_cons, IH. split.
      * intros [->|(n&f&Hin&Hf&->)].
        -- exists name, field. split_and!; [by left|done..].
        -- exists n, f. split_and!; [by right|done..].
      * intros (n&f&Hin&Hf&->). apply elem_of_cons in Hin as [Heq|Hin].
        -- simplify_eq. by left.
        -- right. by exists n, f.
Qed.

Lemma parameters_at_135_unfold model fo aid :
  ModelTyper.parameters_at_135 model fo aid =
    (if aid then [ModelTyper.id_parameter] else [])
    ++ ModelTyper.for_fields (models.fields_map model) fo [].
Proof.
  unfold ModelTyper.parameters_at_135. rewrite for_fields_acc.
  by destruct aid.
Qed.

(** In a dictionary a key has one value. *)
Lemma wf_functional {V} (d : PyDict.t V) k v1 v2 :
  PyDict.wf d → (k, v1) ∈ d → (k, v2) ∈ d → v1 = v2.
Proof.
  unfold PyDict.wf, PyDict.keys. intros Hwf H1 H2.
  induction d as [|[k' v'] d IH]; [inversion H1|].
  rewrite fmap_cons in Hwf. apply NoDup_cons in Hwf as [Hnotin Hwf].
  apply elem_of_cons in H1 as [H1|H1], H2 as [H2|H2]; simplify_eq; auto.
  - exfalso. apply Hnotin. apply list_elem_of_fmap. by exists (k', v2).
  - exfalso. apply Hnotin. apply list_elem_of_fmap. by exists (k', v1).
Qed.

(** C5: with either setting of the two flags, a field of the model that is
    the primary key, or is flagged [auto_now] or [auto_now_add], gets no
    generated parameter: the list holds no keyword parameter under its
    name. *)
Theorem skipped_fields_have_no_parameter
    (model : models.Model) (force_optional add_id_argument : bool)
    (name : string) (field : fields.Field) (p : inspect.Param) :
  PyDict.wf (models.fields_map model) →
  (name, field) ∈ models.fields_map model →
  fields.pk field = true
    ∨ fields.auto_now field = Some true
    ∨ fields.auto_now_add field = Some true →
  p ∈ ModelTyper.parameters_at_135 model force_optional add_id_argument →
  inspect.kind_of p = inspect.KEYWORD_ONLY →
  inspect.name p ≠ name.
Proof.
  intros Hwf Hin Hflag Hp Hkind Hname.
  assert (ModelTyper.skipped field = true) as Hskip.
  { unfold ModelTyper.skipped.
    destruct Hflag as [->|[->| ->]]; cbn; rewrite ?orb_true_r; reflexivity. }
  rewrite parameters_at_135_unfold in Hp.
  apply elem_of_app in Hp as [Hp|Hp].
  - destruct add_id_argument; [|inversion Hp].
    apply list_elem_of_singleton in Hp. subst p. discriminate.
  - apply elem_of_for_fields in Hp as (n & f & Hnf & Hretained & ->).
    cbn in Hname. subst n.
    assert (f = field) by eauto using wf_functional. congruence.
Qed.

(** C6: in edit mode (the flags line 230-236 passes) the list starts with the
    identifier parameter, positional, required, an integer, with its help
    text; every parameter after it is a keyword option whose default is
    [None]; and this list is the signature of the registered command
    [edit] whenever the application is built. *)
Theorem edit_parameters_shape (model : models.Model) :
  ∃ rest,
    ModelTyper.parameters_at_135 model true true = ModelTyper.id_parameter :: rest
    ∧ inspect.name ModelTyper.id_parameter = "id"
    ∧ inspect.kind_of ModelTyper.id_parameter = inspect.POSITIONAL_ONLY
    ∧ inspect.default ModelTyper.id_parameter
        = typer.Argument typer.Ellipsis (Some "ID of the instance")
    ∧ inspect.annotation ModelTyper.id_parameter = py_int
    ∧ Forall (λ p, inspect.kind_of p = inspect.KEYWORD_ONLY
                   ∧ inspect.default p = typer.Option typer.PyNone) rest
    ∧ ∀ app, ModelTyper.__init__ (ModelClass model) = (Ok tt, app) →
        ∃ commands c, app = commands ++ [c]
          ∧ command_name c = "edit"
          ∧ __signature__ (callback_of c) = Some (ModelTyper.id_parameter :: rest).
Proof.
  exists (ModelTyper.for_fields (models.fields_map model) true []).
  split_and!; try reflexivity.
  - by rewrite parameters_at_135_unfold.
  - apply Forall_forall. intros p Hp.
    apply elem_of_for_fields in Hp as (n & f & _ & _ & ->).
    split; [reflexivity|]. cbn.
    unfold ModelTyper.is_required. by rewrite andb_false_r.
  - intros app. unfold ModelTyper.__init__, ModelTyper._add_model_methods. cbn.
    unfold ModelTyper._inject_model_signature, inspect.Signature.
    destruct (inspect.validate _ _ (ModelTyper.parameters_at_135 model false false));
      [|intros; discriminate].
    destruct (inspect.validate _ _ (ModelTyper.parameters_at_135 model true true));
      [|intros; discriminate].
    intros [= <-]. eexists [_; _; _; _], _. split_and!; [reflexivity|reflexivity|].
    cbn. by rewrite parameters_at_135_unfold.
Qed.

(** C7: a retained field of the model has exactly one generated parameter;
    its marker is [...] (required) if and only if the field is not nullable,
    has no default and the mode is create ([force_optional] false), and is
    [None] (optional) in every other case. *)
Theorem retained_field_requiredness
    (model : models.Model) (force_optional add_id_argument : bool)
    (name : string) (field : fields.Field) :
  PyDict.wf (models.fields_map model) →
  (name, field) ∈ models.fields_map model →
  ModelTyper.skipped field = false →
  ∃ p,
    p ∈ ModelTyper.parameters_at_135 model force_optional add_id_argument
    ∧ inspect.name p = name
    ∧ inspect.kind_of p = inspect.KEYWORD_ONLY
    ∧ inspect.annotation p = ModelTyper._get_field_type field
    ∧ (∀ q, q ∈ ModelTyper.parameters_at_135 model force_optional add_id_argument →
            inspect.name q = name → inspect.kind_of q = inspect.KEYWORD_ONLY → q = p)
    ∧ (inspect.default p = typer.Option typer.Ellipsis ↔
         fields.null field = false ∧ fields.default field = VNone
         ∧ force_optional = false)
    ∧ (inspect.default p = typer.Option typer.PyNone ↔
         ¬ (fields.null field = false ∧ fields.default field = VNone
            ∧ force_optional = false)).
Proof.
  intros Hwf Hin Hretained.
  assert (ModelTyper.is_required field force_optional = true ↔
          fields.null field = false ∧ fields.default field = VNone
          ∧ force_optional = false) as Hreq.
  { unfold ModelTyper.is_required.
    destruct (fields.null field), (fields.default field), force_optional;
      cbn; split; intros H; try discriminate; try done;
      destruct H as (?&?&?); discriminate. }
  exists (keyword_parameter name field force_optional).
  split_and!; try reflexivity.
  - rewrite parameters_at_135_unfold. apply elem_of_app. right.
    apply elem_of_for_fields. by exists name, field.
  - intros q Hq Hname Hkind. rewrite parameters_at_135_unfold in Hq.
    apply elem_of_app in Hq as [Hq|Hq].
    + destruct add_id_argument; [|inversion Hq].
      apply list_elem_of_singleton in Hq. subst q. discriminate.
    + apply elem_of_for_fields in Hq as (n & f & Hnf & _ & ->).
      cbn in Hname. subst n.
      assert (f = field) by eauto using wf_functional. by subst f.
  - cbn. rewrite <- Hreq.
    destruct (ModelTyper.is_required field force_optional); split; congruence.
  - cbn. rewrite <- Hreq.
    destruct (ModelTyper.is_required field force_optional); split;
      try congruence; intros H; by destruct H.
Qed.

(** ** The handlers *)

Lemma bind_Ok {A B} (c : M A) (k : A → M B) w a w' :
  c w = (Ok a, w') → bind c k w = k a w'.
Proof. unfold bind. by intros ->. Qed.

Lemma bind_Raise {A B} (c : M A) (k : A → M B) w e w' :
  c w = (Raise e, w') → bind c k w = (Raise e, w').
Proof. unfold bind. by intros ->. Qed.

Lemma mapM_getattr (inst : instance) (keys : list string) w :
  Forall (λ field, is_Some (inst !! field)) keys →
  mapM (λ field, let* v := ModelTyper.getattr inst field in
                 ret ("* " +:+ field +:+ ": " +:+ py_str v)) keys w
  = (Ok (show_line inst <$> keys), w).
Proof.
  induction 1 as [|field keys [v Hv] _ IH]; [done|].
  cbn [mapM].
  rewrite (bind_Ok _ _ w (show_line inst field) w).
  - by rewrite (bind_Ok _ _ _ _ _ IH).
  - unfold bind, ModelTyper.getattr, show_line. by rewrite Hv.
Qed.

Lemma mapM_getattr_world (inst : instance) (keys : list string) w :
  snd (mapM (λ field, let* v := ModelTyper.getattr inst field in
                      ret ("* " +:+ field +:+ ": " +:+ py_str v)) keys w) = w.
Proof.
  induction keys as [|field keys IH]; [done|].
  cbn [mapM]. destruct (inst !! field) as [v|] eqn:Hv.
  - rewrite (bind_Ok _ _ w ("* " +:+ field +:+ ": " +:+ py_str v) w).
    + unfold bind at 1.
      destruct (mapM _ keys w) as [[bs|e] w'] eqn:E; cbn in *; by subst.
    + unfold bind, ModelTyper.getattr. by rewrite Hv.
  - rewrite (bind_Raise _ _ w (AttributeError ("object has no attribute '" +:+ field +:+ "'")) w);
      [done|].
    unfold bind, ModelTyper.getattr. by rewrite Hv.
Qed.

Lemma _show_complete (model : models.Model) (inst : instance) w :
  has_fields model inst →
  ModelTyper._show model inst w
  = (Ok tt, evolve w (store w) (next_id w) []
              [Panel "Info" "white" (rendering model inst)]).
Proof.
  intros Hc. unfold ModelTyper._show.
  erewrite bind_Ok by by apply mapM_getattr.
  unfold info, _make_panel_printer, print, evolve, rendering.
  by rewrite app_nil_r.
Qed.

(** [_show] reads the instance and prints: the store and the persistence
    trace are as before, whether it returns or raises. *)
Lemma _show_frame (model : models.Model) (inst : instance) w :
  store (snd (ModelTyper._show model inst w)) = store w
  ∧ db_log (snd (ModelTyper._show model inst w)) = db_log w.
Proof.
  unfold ModelTyper._show, bind.
  pose proof (mapM_getattr_world inst (PyDict.keys (models.fields_map model)) w) as Hw.
  destruct (mapM _ _ w) as [[bs|e] w']; cbn in *; by subst.
Qed.

Lemma get_missing (id : Z) w :
  store w !! id = None →
  orm.get (VInt id) w
  = (Raise DoesNotExist, evolve w (store w) (next_id w) [DbGet (VInt id)] []).
Proof.
  intros H. unfold orm.get, bind, log_call, evolve. cbn. rewrite H.
  by rewrite app_nil_r.
Qed.

Lemma get_found (id : Z) (inst : instance) w :
  store w !! id = Some inst →
  orm.get (VInt id) w
  = (Ok inst, evolve w (store w) (next_id w) [DbGet (VInt id)] []).
Proof.
  intros H. unfold orm.get, bind, log_call, evolve. cbn. rewrite H.
  by rewrite app_nil_r.
Qed.

Lemma evolve_evolve w st1 n1 c1 o1 st2 n2 c2 o2 :
  evolve (evolve w st1 n1 c1 o1) st2 n2 c2 o2 = evolve w st2 n2 (c1 ++ c2) (o1 ++ o2).
Proof. unfold evolve. cbn. by rewrite !app_assoc. Qed.

(** C8: [show] with an identifier no instance has prints the error panel
    "<MODEL> with ID <id> not found." and returns; with an existing instance
    it prints one info panel holding a line "* <field>: <value>" per field of
    the model, joined by newlines. *)
Theorem show_behaviour (model : models.Model) (id : Z) (w : world) :
  (store w !! id = None →
     ModelTyper.show model (MODEL model) id w
     = (Ok tt, evolve w (store w) (next_id w) [DbGet (VInt id)]
                 [Panel "Error" "red"
                    (MODEL model +:+ " with ID " +:+ pretty id +:+ " not found.")]))
  ∧ (∀ inst, store w !! id = Some inst → has_fields model inst →
       ModelTyper.show model (MODEL model) id w
       = (Ok tt, evolve w (store w) (next_id w) [DbGet (VInt id)]
                   [Panel "Info" "white"
                      (join newline
                         ((λ field, "* " +:+ field +:+ ": "
                                    +:+ py_str (default VNone (inst !! field)))
                            <$> PyDict.keys (models.fields_map model)))])).
Proof.
  split.
  - intros Hnone. unfold ModelTyper.show, try_except_DoesNotExist, asyncio_run.
    unfold bind at 1. unfold bind at 1. rewrite (get_missing _ _ Hnone).
    unfold bind, error, _make_panel_printer, print, ret, evolve. cbn.
    by rewrite app_nil_r.
  - intros inst Hsome Hfields.
    unfold ModelTyper.show, try_except_DoesNotExist, asyncio_run.
    unfold bind at 1. unfold bind at 1. rewrite (get_found _ _ _ Hsome).
    cbn [ret]. rewrite (_show_complete _ _ _ Hfields).
    by rewrite evolve_evolve.
Qed.

(** C9: [delete] with an identifier no instance has prints an error panel and
    issues no [delete()] call, the store staying as it was; with an existing
    instance it deletes the row and prints the info panel
    "<MODEL> with ID <id> deleted successfully.". *)
Theorem delete_behaviour (model : models.Model) (id : Z) (w : world) :
  (store w !! id = None →
     ModelTyper.delete model (MODEL model) id w
     = (Ok tt, evolve w (store w) (next_id w) [DbGet (VInt id)]
                 [Panel "Error" "red"
                    (MODEL model +:+ " with ID " +:+ pretty id +:+ " not found.")]))
  ∧ (∀ inst, store w !! id = Some inst → orm.instance_id inst = VInt id →
       ModelTyper.delete model (MODEL model) id w
       = (Ok tt, evolve w (base.delete id (store w)) (next_id w)
                   [DbGet (VInt id); DbDelete (VInt id)]
                   [Panel "Info" "white"
                      (MODEL model +:+ " with ID " +:+ pretty id
                       +:+ " deleted successfully.")])
       ∧ base.delete id (store w) !! id = None).
Proof.
  split.
  - intros Hnone. unfold ModelTyper.delete, try_except_DoesNotExist, asyncio_run.
    unfold bind at 1. unfold bind at 1. rewrite (get_missing _ _ Hnone).
    unfold error, _make_panel_printer, print, evolve. cbn.
    by rewrite app_nil_r.
  - intros inst Hsome Hid. split; [|apply lookup_delete_eq].
    unfold ModelTyper.delete, try_except_DoesNotExist, asyncio_run.
    unfold bind at 1. unfold bind at 1. rewrite (get_found _ _ _ Hsome).
    unfold orm.delete. rewrite Hid.
    unfold bind, log_call, set_store, info, _make_panel_printer, print, evolve.
    cbn. by rewrite !app_nil_r, <- app_assoc.
Qed.

(** [edit] with an identifier no instance has: the exception of [get] leaves
    the handler, and nothing is printed. *)
Lemma edit_missing (model : models.Model) (kwargs args : PyDict.t py_value)
    (id : Z) (w : world) :
  PyDict.pop "id" kwargs = Some (VInt id, args) →
  store w !! id = None →
  ModelTyper.edit model kwargs w
  = (Raise DoesNotExist, evolve w (store w) (next_id w) [DbGet (VInt id)] []).
Proof.
  intros Hpop Hnone. unfold ModelTyper.edit, asyncio_run, PyDict.copy.
  rewrite Hpop. unfold bind at 1. unfold bind at 1.
  by rewrite (get_missing _ _ Hnone).
Qed.

(** C1, at [edit 42 --done true] on an empty store: [DoesNotExist] propagates
    out of the handler and the console stays empty, where [show 42] and
    [delete 42] return normally after printing the error panel. *)
Theorem edit_missing_propagates :
  fst (ModelTyper.edit Task [("id", VInt 42); ("title", VNone); ("done", VBool true)]
         empty_world) = Raise DoesNotExist
  ∧ console (snd (ModelTyper.edit Task
                    [("id", VInt 42); ("title", VNone); ("done", VBool true)]
                    empty_world)) = []
  ∧ fst (ModelTyper.show Task (MODEL Task) 42 empty_world) = Ok tt
  ∧ fst (ModelTyper.delete Task (MODEL Task) 42 empty_world) = Ok tt
  ∧ console (snd (ModelTyper.show Task (MODEL Task) 42 empty_world))
    = [Panel "Error" "red" "TASK with ID 42 not found."].
Proof.
  rewrite (edit_missing Task _ [("title", VNone); ("done", VBool true)] 42)
    by reflexivity.
  split_and!; reflexivity.
Qed.

Lemma create_log (m : models.Model) (kwargs : PyDict.t py_value) (w : world) :
  db_log (snd (orm.create m kwargs w)) = db_log w ++ [DbCreate kwargs].
Proof. unfold orm.create. by destruct (orm.refused _ _). Qed.

Lemma save_log (inst : instance) (w : world) :
  db_log (snd (orm.save inst w)) = db_log w ++ [DbSave (orm.instance_id inst)].
Proof.
  unfold orm.save, bind, log_call. cbn. by destruct (orm.instance_id inst).
Qed.

(** C2 as stated fails: creating a task on the empty store, with a title, the
    done flag and no due date, adds two entries to the persistence trace,
    [create] and then [save]. *)
Lemma create_two_calls_example :
  PyDict.keys [("title", VStr "buy milk"); ("done", VBool false); ("due", VNone)]
  = inspect.name <$> ModelTyper.parameters_at_135 Task false false
  ∧ db_log (snd (ModelTyper.create Task
                   [("title", VStr "buy milk"); ("done", VBool false); ("due", VNone)]
                   empty_world))
    = [DbCreate [("title", VStr "buy milk"); ("done", VBool false); ("due", VNone)];
       DbSave (VInt 1)]
  ∧ ¬ single_persistence_call empty_world
        (snd (ModelTyper.create Task
                [("title", VStr "buy milk"); ("done", VBool false); ("due", VNone)]
                empty_world)).
Proof.
  assert (db_log (snd (ModelTyper.create Task
                   [("title", VStr "buy milk"); ("done", VBool false); ("due", VNone)]
                   empty_world))
    = [DbCreate [("title", VStr "buy milk"); ("done", VBool false); ("due", VNone)];
       DbSave (VInt 1)]) as Hlog by (vm_compute; reflexivity).
  split_and!; [reflexivity|exact Hlog|].
  intros [c Hc]. rewrite Hlog in Hc. cbn in Hc. discriminate.
Qed.

(** C2, amended: every [create] calls [Model.create] once on the supplied
    keyword fields; when that call returns an instance, [save()] is called
    once on it and no other persistence call is made; when it raises, the
    exception leaves the handler and no further persistence call is made. *)
Theorem create_persistence_calls
    (model : models.Model) (kwargs : PyDict.t py_value) (w : world) :
  match orm.create model kwargs w with
  | (Ok inst, _) =>
      db_log (snd (ModelTyper.create model kwargs w))
      = db_log w ++ [DbCreate kwargs; DbSave (orm.instance_id inst)]
  | (Raise e, w') =>
      ModelTyper.create model kwargs w = (Raise e, w')
      ∧ db_log w' = db_log w ++ [DbCreate kwargs]
  end.
Proof.
  pose proof (create_log model kwargs w) as Hcreate.
  destruct (orm.create model kwargs w) as [[inst|e] w1] eqn:E; cbn [snd] in Hcreate.
  - unfold ModelTyper.create, asyncio_run. unfold bind at 1.
    rewrite (bind_Ok _ _ _ _ _ E).
    pose proof (save_log inst w1) as Hsave. unfold bind at 1.
    destruct (orm.save inst w1) as [[[]|e] w2]; cbn [snd ret] in *.
    + rewrite (proj2 (_show_frame _ _ _)), Hsave, Hcreate. by rewrite <- app_assoc.
    + rewrite Hsave, Hcreate. by rewrite <- app_assoc.
  - split; [|done]. unfold ModelTyper.create, asyncio_run.
    apply bind_Raise. by apply bind_Raise.
Qed.

(** ** The identifier under [edit] *)

Lemma pop_wf {V} (d : PyDict.t V) (k : string) (v : V) :
  PyDict.wf d → PyDict.get k d = Some v →
  ∃ args, PyDict.pop k d = Some (v, args)
          ∧ (k ∉ PyDict.keys args)
          ∧ ∀ x, x ∈ args → x ∈ d.
Proof.
  unfold PyDict.wf, PyDict.keys.
  induction d as [|[k' v'] d IH]; intros Hwf Hget; [discriminate|].
  rewrite fmap_cons in Hwf. apply NoDup_cons in Hwf as [Hnotin Hwf].
  cbn in *. destruct (decide (k' = k)) as [->|Hne].
  - simplify_eq. exists d. split_and!; [done|done|]. intros x Hx. by right.
  - destruct (IH Hwf Hget) as (args & -> & Hk & Hsub).
    exists ((k', v') :: args). split_and!; [done| |].
    + rewrite fmap_cons. cbn. intros [?|?]%elem_of_cons; congruence.
    + intros x [->|Hx]%elem_of_cons; [by left|right; auto].
Qed.

(** After the loop an attribute is what it was, or it is a value the loop was
    given for it that is not [None]. *)
Lemma for_items_lookup (items : PyDict.t py_value) (inst : instance) (k : string) :
  ModelTyper.for_items items inst !! k = inst !! k
  ∨ ∃ v, (k, v) ∈ items ∧ v ≠ VNone
         ∧ ModelTyper.for_items items inst !! k = Some v.
Proof.
  revert inst. induction items as [|[key value] rest IH]; intros inst; [by left|].
  cbn [ModelTyper.for_items]. destruct (is_None value) eqn:Hv.
  - destruct (IH inst) as [H|(v & Hin & Hne & H)]; [by left|].
    right. exists v. split_and!; [by right|done..].
  - destruct (IH (<[key := value]> inst)) as [H|(v & Hin & Hne & H)].
    + destruct (decide (key = k)) as [->|Hkey].
      * right. exists value. rewrite lookup_insert_eq in H.
        split_and!; [by left| |done]. by intros ->.
      * left. by rewrite lookup_insert_ne in H.
    + right. exists v. split_and!; [by right|done..].
Qed.

(** C10: [edit] on an existing instance pops "id" from its copy of the
    keyword fields, so the loop never sees that key; the instance it saves has
    the identifier it was fetched with, differs from the fetched one only in
    attributes the caller supplied with a value other than [None], and is
    saved to the row it came from. *)
Theorem edit_keeps_identifier
    (model : models.Model) (kwargs : PyDict.t py_value) (id : Z)
    (inst : instance) (w : world) :
  PyDict.wf kwargs →
  PyDict.get "id" kwargs = Some (VInt id) →
  store w !! id = Some inst →
  orm.instance_id inst = VInt id →
  ∃ args inst',
    PyDict.pop "id" (PyDict.copy kwargs) = Some (VInt id, args)
    ∧ ("id" ∉ PyDict.keys args)
    ∧ inst' = ModelTyper.for_items args inst
    ∧ inst' !! "id" = inst !! "id"
    ∧ (∀ k, inst' !! k ≠ inst !! k →
         k ≠ "id" ∧ ∃ v, (k, v) ∈ kwargs ∧ v ≠ VNone ∧ inst' !! k = Some v)
    ∧ store (snd (ModelTyper.edit model kwargs w)) = <[id := inst']> (store w)
    ∧ db_log (snd (ModelTyper.edit model kwargs w))
      = db_log w ++ [DbGet (VInt id); DbSave (VInt id)].
Proof.
  intros Hwf Hget Hsome Hid.
  destruct (pop_wf kwargs "id" (VInt id) Hwf Hget) as (args & Hpop & Hnotin & Hsub).
  assert (ModelTyper.for_items args inst !! "id" = inst !! "id") as Hkeep.
  { destruct (for_items_lookup args inst "id") as [H|(v & Hin & _ & _)]; [done|].
    exfalso. apply Hnotin. unfold PyDict.keys.
    apply list_elem_of_fmap. by exists ("id", v). }
  exists args, (ModelTyper.for_items args inst).
  split_and!; [done|done|done|done| | |].
  - intros k Hk.
    destruct (for_items_lookup args inst k) as [H|(v & Hin & Hne & H)]; [done|].
    split; [intros ->; congruence|]. exists v. auto.
  - unfold ModelTyper.edit, asyncio_run, PyDict.copy. rewrite Hpop.
    unfold bind at 1. unfold bind at 1. unfold bind at 1.
    rewrite (get_found _ _ _ Hsome).
    unfold orm.save, orm.instance_id. rewrite Hkeep.
    unfold orm.instance_id in Hid. rewrite Hid.
    unfold bind, log_call, set_store, ret. cbn. apply _show_frame.
  - unfold ModelTyper.edit, asyncio_run, PyDict.copy. rewrite Hpop.
    unfold bind at 1. unfold bind at 1. unfold bind at 1.
    rewrite (get_found _ _ _ Hsome).
    unfold orm.save, orm.instance_id. rewrite Hkeep.
    unfold orm.instance_id in Hid. rewrite Hid.
    unfold bind, log_call, set_store, ret. cbn.
    rewrite (proj2 (_show_frame _ _ _)). cbn. by rewrite <- ?app_assoc, ?app_nil_r.
Qed.

(** ** Construction of the application *)

(** An object that has a name but is no subclass of [models.Model] is
    rejected with a [TypeError], and nothing is registered. *)
Lemma init_rejects_named (o : supplied) (n : string) :
  getattr___name__ o = Ok n →
  (∀ m, o ≠ ModelClass m) →
  ∃ msg, ModelTyper.__init__ o = (Raise (TypeError msg), []).
Proof.
  intros Hname Hnot. unfold ModelTyper.__init__, ModelTyper._add_model_methods.
  rewrite Hname. destruct o as [m|n' r|n'|ty]; cbn.
  - by destruct (Hnot m).
  - eauto.
  - eauto.
  - discriminate.
Qed.

(** The signature check passes on keyword parameters with fresh names. *)
Lemma validate_keywords (ps : list inspect.Param) (top : inspect.kind)
    (seen : list string) :
  Forall (λ p, inspect.kind_of p = inspect.KEYWORD_ONLY) ps →
  (inspect.kind_rank top ≤ 3)%nat →
  NoDup (seen ++ (inspect.name <$> ps)) →
  inspect.validate top seen ps = Ok tt.
Proof.
  revert top seen. induction ps as [|p ps IH]; intros top seen Hk Htop Hnd; [done|].
  apply Forall_cons in Hk as [Hp Hk]. cbn [inspect.validate]. rewrite Hp.
  replace (inspect.kind_rank inspect.KEYWORD_ONLY <? inspect.kind_rank top)%nat
    with false by (symmetry; apply Nat.ltb_ge; exact Htop).
  rewrite fmap_cons in Hnd.
  rewrite bool_decide_eq_false_2.
  - apply IH; [done|reflexivity|]. by rewrite <- app_assoc.
  - apply NoDup_app in Hnd as (_ & Hdisj & _). intros Hin.
    apply (Hdisj _ Hin). by left.
Qed.

Lemma for_fields_names items fo :
  PyDict.wf items →
  NoDup (inspect.name <$> ModelTyper.for_fields items fo [])
  ∧ ∀ n, n ∈ (inspect.name <$> ModelTyper.for_fields items fo []) →
         ∃ field, (n, field) ∈ items ∧ ModelTyper.skipped field = false.
Proof.
  intros Hwf. split.
  - unfold PyDict.wf, PyDict.keys in Hwf.
    induction items as [|[name field] rest IH]; [constructor|].
    rewrite fmap_cons in Hwf. apply NoDup_cons in Hwf as [Hnotin Hwf].
    rewrite for_fields_cons. destruct (ModelTyper.skipped field); [auto|].
    rewrite fmap_cons. apply NoDup_cons. split; [|auto].
    intros (p & Hname & Hp)%list_elem_of_fmap.
    apply elem_of_for_fields in Hp as (n & f & Hin & _ & ->). cbn in Hname.
    apply Hnotin. apply list_elem_of_fmap. exists (n, f). by subst.
  - intros n (p & -> & Hp)%list_elem_of_fmap.
    apply elem_of_for_fields in Hp as (n & f & Hin & Hs & ->). by exists f.
Qed.

(** A model whose field named "id", if it has one, is skipped gets its five
    commands, in the order of lines 220-237. *)
Lemma init_registers_five_commands (model : models.Model) :
  PyDict.wf (models.fields_map model) →
  (∀ field, ("id", field) ∈ models.fields_map model →
            ModelTyper.skipped field = true) →
  ∃ app, ModelTyper.__init__ (ModelClass model) = (Ok tt, app)
         ∧ command_name <$> app = ["list"; "delete"; "show"; "create"; "edit"].
Proof.
  intros Hwf Hid. destruct (for_fields_names (models.fields_map model) false Hwf)
    as [Hnd0 _].
  destruct (for_fields_names (models.fields_map model) true Hwf) as [Hnd1 Hsrc].
  assert (∀ fo, Forall (λ p, inspect.kind_of p = inspect.KEYWORD_ONLY)
                  (ModelTyper.for_fields (models.fields_map model) fo [])) as Hkw.
  { intros fo. apply Forall_forall. intros p Hp.
    by apply elem_of_for_fields in Hp as (n & f & _ & _ & ->). }
  unfold ModelTyper.__init__, ModelTyper._add_model_methods,
    ModelTyper._inject_model_signature, inspect.Signature.
  cbn [getattr___name__ issubclass_Model].
  rewrite !parameters_at_135_unfold. cbn [app inspect.validate].
  rewrite (validate_keywords _ inspect.POSITIONAL_ONLY []); [|done|cbn; lia|done].
  cbn [inspect.kind_of ModelTyper.id_parameter inspect.kind_rank Nat.ltb Nat.leb
       inspect.name].
  rewrite bool_decide_eq_false_2 by (intros H; inversion H).
  rewrite (validate_keywords _ inspect.POSITIONAL_ONLY ["id"]); [|done|cbn; lia|].
  - eexists. split; reflexivity.
  - cbn. apply NoDup_cons. split; [|done].
    intros (field & Hin & Hs)%Hsrc. rewrite (Hid _ Hin) in Hs. discriminate.
Qed.

(** C4, at [ModelTyper(42)]: line 149 reads [model.__name__] before the test
    of line 151, so an object without that attribute leaves the constructor
    with an [AttributeError], not a [TypeError]; no command is registered. *)
Theorem init_plain_object_attribute_error :
  ModelTyper.__init__ (PlainObject "int")
  = (Raise (AttributeError "'int' object has no attribute '__name__'"), [])
  ∧ ¬ (∃ msg, fst (ModelTyper.__init__ (PlainObject "int")) = Raise (TypeError msg))
  ∧ (∃ msg, ModelTyper.__init__ (OtherClass "Plain" "<class 'app.Plain'>")
            = (Raise (TypeError msg), [])).
Proof.
  split_and!; [reflexivity| |].
  - intros [msg H]. discriminate.
  - eapply init_rejects_named; [reflexivity|]. intros m. discriminate.
Qed.

(** ** Instances of the theorems on the sample model *)

Lemma skipped_fields_have_no_parameter_witness :
  PyDict.wf (models.fields_map Task)
  ∧ ("created", Task_created) ∈ models.fields_map Task
  ∧ fields.auto_now_add Task_created = Some true
  ∧ keyword_parameter "title" Task_title true ∈ ModelTyper.parameters_at_135 Task true true
  ∧ inspect.name (keyword_parameter "title" Task_title true) ≠ "created".
Proof.
  assert (PyDict.wf (models.fields_map Task)) as Hwf by by_decide.
  assert (("created", Task_created) ∈ models.fields_map Task) as Hin by (cbn; in_list).
  assert (keyword_parameter "title" Task_title true
            ∈ ModelTyper.parameters_at_135 Task true true) as Hp
    by (vm_compute; in_list).
  split_and!; [exact Hwf|exact Hin|reflexivity|exact Hp|].
  apply (skipped_fields_have_no_parameter Task true true "created" Task_created
           (keyword_parameter "title" Task_title true) Hwf Hin).
  - right. right. reflexivity.
  - exact Hp.
  - reflexivity.
Defined.

Lemma edit_parameters_shape_witness :
  ∃ app commands c,
    ModelTyper.__init__ (ModelClass Task) = (Ok tt, app)
    ∧ app = commands ++ [c]
    ∧ command_name c = "edit"
    ∧ (inspect.name <$> default [] (__signature__ (callback_of c)))
      = ["id"; "title"; "done"; "due"].
Proof.
  destruct (edit_parameters_shape Task) as (rest & Hps & _ & _ & _ & _ & _ & Hreg).
  destruct (ModelTyper.__init__ (ModelClass Task)) as [r app] eqn:Hinit.
  assert (r = Ok tt) as ->.
  { assert (inspect.validate inspect.POSITIONAL_ONLY []
              (ModelTyper.parameters_at_135 Task false false) = Ok tt) as Hc
      by (vm_compute; reflexivity).
    assert (inspect.validate inspect.POSITIONAL_ONLY []
              (ModelTyper.parameters_at_135 Task true true) = Ok tt) as He
      by (vm_compute; reflexivity).
    unfold ModelTyper.__init__, ModelTyper._add_model_methods,
      ModelTyper._inject_model_signature, inspect.Signature in Hinit.
    cbn [getattr___name__ issubclass_Model] in Hinit.
    rewrite Hc, He in Hinit. congruence. }
  destruct (Hreg app eq_refl) as (commands & c & Happ & Hname & Hsig).
  exists app, commands, c. split_and!; [reflexivity|exact Happ|exact Hname|].
  rewrite Hsig, <- Hps. reflexivity.
Defined.

Lemma retained_field_requiredness_witness :
  PyDict.wf (models.fields_map Task)
  ∧ ("title", Task_title) ∈ models.fields_map Task
  ∧ ModelTyper.skipped Task_title = false
  ∧ ∃ p, p ∈ ModelTyper.parameters_at_135 Task false false
         ∧ inspect.name p = "title"
         ∧ inspect.default p = typer.Option typer.Ellipsis.
Proof.
  assert (PyDict.wf (models.fields_map Task)) as Hwf by by_decide.
  assert (("title", Task_title) ∈ models.fields_map Task) as Hin by (cbn; in_list).
  split_and!; [exact Hwf|exact Hin|reflexivity|].
  destruct (retained_field_requiredness Task false false "title" Task_title
              Hwf Hin eq_refl) as (p & Hp & Hname & _ & _ & _ & Hreq & _).
  exists p. split_and!; [exact Hp|exact Hname|].
  apply Hreq. split_and!; reflexivity.
Defined.

Lemma show_behaviour_witness :
  (store empty_world !! 42 = None
   ∧ ModelTyper.show Task (MODEL Task) 42 empty_world
     = (Ok tt, evolve empty_world ∅ 1 [DbGet (VInt 42)]
                 [Panel "Error" "red" "TASK with ID 42 not found."]))
  ∧ (store one_task !! 1 = Some task1
     ∧ has_fields Task task1
     ∧ console (snd (ModelTyper.show Task (MODEL Task) 1 one_task))
       = [Panel "Info" "white"
            (join newline
               ["* id: 1"; "* title: buy milk"; "* done: False"; "* due: None";
                "* created: 2024-01-01 10:00:00"])]).
Proof.
  assert (has_fields Task task1) as Hfields.
  { unfold has_fields. cbn. repeat constructor; eexists; vm_compute; reflexivity. }
  split; split_and!.
  - reflexivity.
  - apply (proj1 (show_behaviour Task 42 empty_world)). reflexivity.
  - reflexivity.
  - exact Hfields.
  - rewrite (proj2 (show_behaviour Task 1 one_task) task1 eq_refl Hfields).
    vm_compute. reflexivity.
Defined.

Lemma delete_behaviour_witness :
  (store empty_world !! 7 = None
   ∧ ModelTyper.delete Task (MODEL Task) 7 empty_world
     = (Ok tt, evolve empty_world ∅ 1 [DbGet (VInt 7)]
                 [Panel "Error" "red" "TASK with ID 7 not found."]))
  ∧ (store one_task !! 1 = Some task1
     ∧ orm.instance_id task1 = VInt 1
     ∧ ModelTyper.delete Task (MODEL Task) 1 one_task
       = (Ok tt, evolve one_task (base.delete 1 (store one_task)) 2
                   [DbGet (VInt 1); DbDelete (VInt 1)]
                   [Panel "Info" "white" "TASK with ID 1 deleted successfully."])).
Proof.
  split; split_and!.
  - reflexivity.
  - apply (proj1 (delete_behaviour Task 7 empty_world)). reflexivity.
  - reflexivity.
  - reflexivity.
  - apply (proj2 (delete_behaviour Task 1 one_task) task1); reflexivity.
Defined.

Lemma edit_keeps_identifier_witness :
  PyDict.wf [("id", VInt 1); ("title", VNone); ("done", VBool true)]
  ∧ store one_task !! 1 = Some task1
  ∧ orm.instance_id task1 = VInt 1
  ∧ ∃ inst',
      store (snd (ModelTyper.edit Task
                    [("id", VInt 1); ("title", VNone); ("done", VBool true)]
                    one_task)) = <[1 := inst']> (store one_task)
      ∧ inst' !! "id" = Some (VInt 1).
Proof.
  assert (PyDict.wf [("id", VInt 1); ("title", VNone); ("done", VBool true)]) as Hwf
    by by_decide.
  split_and!; [exact Hwf|reflexivity|reflexivity|].
  destruct (edit_keeps_identifier Task
              [("id", VInt 1); ("title", VNone); ("done", VBool true)]
              1 task1 one_task Hwf eq_refl eq_refl eq_refl)
    as (args & inst' & _ & _ & _ & Hid & _ & Hstore & _).
  exists inst'. split; [exact Hstore|]. rewrite Hid. reflexivity.
Defined.

(** * Further properties of the module *)

(** ** Signatures and registration *)

Lemma for_fields_retained (model : models.Model) (fo : bool) :
  ModelTyper.for_fields (models.fields_map model) fo []
  = (λ item, keyword_parameter item.1 item.2 fo) <$> retained model.
Proof.
  unfold retained. generalize (models.fields_map model). intros items.
  induction items as [|[name field] rest IH]; [done|].
  rewrite for_fields_cons. destruct (ModelTyper.skipped field) eqn:Hs.
  - rewrite filter_cons_False; [done|]. cbn. by rewrite Hs.
  - rewrite filter_cons_True by done. by rewrite fmap_cons, IH.
Qed.

(** X1: the generated parameters follow the declared order of the fields: their
    names are "id" (when asked for) and then the names of the fields that are
    not skipped, one parameter each; only the identifier is positional. *)
Theorem parameter_names_in_field_order
    (model : models.Model) (force_optional add_id_argument : bool) :
  inspect.name <$> ModelTyper.parameters_at_135 model force_optional add_id_argument
  = (if add_id_argument then ["id"] else []) ++ PyDict.keys (retained model)
  ∧ inspect.kind_of <$> ModelTyper.parameters_at_135 model force_optional add_id_argument
    = (if add_id_argument then [inspect.POSITIONAL_ONLY] else [])
      ++ replicate (length (retained model)) inspect.KEYWORD_ONLY
  ∧ inspect.annotation <$> ModelTyper.parameters_at_135 model force_optional add_id_argument
    = (if add_id_argument then [py_int] else [])
      ++ ((λ item, ModelTyper._get_field_type item.2) <$> retained model).
Proof.
  rewrite parameters_at_135_unfold, for_fields_retained, !fmap_app.
  unfold PyDict.keys.
  split_and!; (f_equal; [by destruct add_id_argument|]).
  - rewrite <- list_fmap_compose. by apply list_fmap_ext.
  - induction (retained model) as [|item rest IH]; [done|].
    cbn. by rewrite <- IH.
  - rewrite <- list_fmap_compose. by apply list_fmap_ext.
Qed.

Lemma retained_wf (model : models.Model) :
  PyDict.wf (models.fields_map model) →
  ∀ fo, NoDup (inspect.name <$> ModelTyper.for_fields (models.fields_map model) fo []).
Proof. intros Hwf fo. by apply for_fields_names. Qed.

Lemma for_fields_keywords (model : models.Model) (fo : bool) :
  Forall (λ p, inspect.kind_of p = inspect.KEYWORD_ONLY)
    (ModelTyper.for_fields (models.fields_map model) fo []).
Proof.
  apply Forall_forall. intros p Hp.
  by apply elem_of_for_fields in Hp as (n & f & _ & _ & ->).
Qed.

Lemma Signature_without_id (model : models.Model) (fo : bool) :
  PyDict.wf (models.fields_map model) →
  inspect.Signature (ModelTyper.parameters_at_135 model fo false)
  = Ok (ModelTyper.parameters_at_135 model fo false).
Proof.
  intros Hwf. unfold inspect.Signature.
  rewrite parameters_at_135_unfold. cbn [app].
  rewrite (validate_keywords _ inspect.POSITIONAL_ONLY []);
    [done|apply for_fields_keywords|cbn; lia|by apply retained_wf].
Qed.

Lemma Signature_with_id_ok (model : models.Model) (fo : bool) :
  PyDict.wf (models.fields_map model) →
  (∀ field, ("id", field) ∈ models.fields_map model →
            ModelTyper.skipped field = true) →
  inspect.Signature (ModelTyper.parameters_at_135 model fo true)
  = Ok (ModelTyper.parameters_at_135 model fo true).
Proof.
  intros Hwf Hid. unfold inspect.Signature.
  rewrite parameters_at_135_unfold. cbn [app inspect.validate].
  cbn [inspect.kind_of ModelTyper.id_parameter inspect.kind_rank Nat.ltb Nat.leb
       inspect.name].
  rewrite bool_decide_eq_false_2 by (intros H; inversion H).
  rewrite (validate_keywords _ inspect.POSITIONAL_ONLY ["id"]);
    [done|apply for_fields_keywords|cbn; lia|].
  cbn. apply NoDup_cons. split; [|by apply retained_wf].
  intros Hin. apply (for_fields_names _ fo Hwf) in Hin as (field & Hin & Hs).
  rewrite (Hid _ Hin) in Hs. discriminate.
Qed.

(** The signature check stops at a name it has seen. *)
Lemma validate_duplicate (ps : list inspect.Param) (top : inspect.kind)
    (seen : list string) (n : string) :
  Forall (λ p, inspect.kind_of p = inspect.KEYWORD_ONLY) ps →
  (inspect.kind_rank top ≤ 3)%nat →
  NoDup (inspect.name <$> ps) →
  n ∈ seen → n ∈ (inspect.name <$> ps) →
  (∀ m, m ∈ (inspect.name <$> ps) → m ∈ seen → m = n) →
  inspect.validate top seen ps
  = Raise (ValueError ("duplicate parameter name: " +:+ n)).
Proof.
  revert top seen. induction ps as [|p ps IH];
    intros top seen Hk Htop Hnd Hseen Hin Honly; [inversion Hin|].
  apply Forall_cons in Hk as [Hp Hk]. rewrite fmap_cons in Hnd, Hin, Honly.
  apply NoDup_cons in Hnd as [Hfresh Hnd].
  cbn [inspect.validate]. rewrite Hp.
  replace (inspect.kind_rank inspect.KEYWORD_ONLY <? inspect.kind_rank top)%nat
    with false by (symmetry; apply Nat.ltb_ge; exact Htop).
  destruct (decide (inspect.name p ∈ seen)) as [Hdup|Hnew].
  - rewrite bool_decide_eq_true_2 by done.
    rewrite (Honly (inspect.name p)); [done|by left|done].
  - rewrite bool_decide_eq_false_2 by done.
    apply IH; [done|reflexivity|done| | |].
    + apply elem_of_app. by left.
    + apply elem_of_cons in Hin as [->|Hin]; [done|done].
    + intros m Hm [Hs| ->%list_elem_of_singleton]%elem_of_app.
      * apply Honly; [by right|done].
      * done.
Qed.

Lemma Signature_with_id_duplicate (model : models.Model) (fo : bool)
    (field : fields.Field) :
  PyDict.wf (models.fields_map model) →
  ("id", field) ∈ models.fields_map model →
  ModelTyper.skipped field = false →
  inspect.Signature (ModelTyper.parameters_at_135 model fo true)
  = Raise (ValueError "duplicate parameter name: id").
Proof.
  intros Hwf Hin Hs. unfold inspect.Signature.
  rewrite parameters_at_135_unfold. cbn [app inspect.validate].
  cbn [inspect.kind_of ModelTyper.id_parameter inspect.kind_rank Nat.ltb Nat.leb
       inspect.name].
  rewrite bool_decide_eq_false_2 by (intros H; inversion H).
  rewrite (validate_duplicate _ inspect.POSITIONAL_ONLY ["id"] "id");
    [done|apply for_fields_keywords|cbn; lia|by apply retained_wf
    |cbn; by left| |].
  - apply list_elem_of_fmap. exists (keyword_parameter "id" field fo).
    split; [done|]. apply elem_of_for_fields. by exists "id", field.
  - by intros m _ ->%list_elem_of_singleton.
Qed.

Lemma Task_wf : PyDict.wf (models.fields_map Task).
Proof. by_decide. Qed.

Lemma Ledger_wf : PyDict.wf (models.fields_map Ledger).
Proof. by_decide. Qed.

Lemma Task_id_skipped (field : fields.Field) :
  ("id", field) ∈ models.fields_map Task → ModelTyper.skipped field = true.
Proof.
  intros Hin.
  assert (field = Task_id) as ->; [|reflexivity].
  eapply wf_functional; [apply Task_wf|exact Hin|cbn; in_list].
Qed.

(** X2: without the identifier argument (the call for [create], line 228)
    signature injection cannot fail on a model: the handler keeps its body
    and gets the generated parameters as its signature. *)
Theorem inject_without_id_succeeds
    (model : models.Model) (func : callable) (force_optional : bool) :
  PyDict.wf (models.fields_map model) →
  ModelTyper._inject_model_signature model func force_optional false
  = Ok {| body := body func;
          __signature__ :=
            Some (ModelTyper.parameters_at_135 model force_optional false) |}.
Proof.
  intros Hwf. unfold ModelTyper._inject_model_signature.
  by rewrite Signature_without_id.
Qed.

Lemma inject_without_id_succeeds_witness :
  PyDict.wf (models.fields_map Ledger)
  ∧ ∃ f, ModelTyper._inject_model_signature Ledger
           (def (Keywords (ModelTyper.create Ledger))) false false = Ok f
         ∧ (inspect.name <$> default [] (__signature__ f)) = ["id"; "note"].
Proof.
  split; [apply Ledger_wf|]. eexists. split.
  - apply (inject_without_id_succeeds Ledger _ false Ledger_wf).
  - reflexivity.
Defined.

(** X3: with the identifier argument (the call for [edit], lines 231-236)
    signature injection succeeds when the model has no retained field named
    "id", and otherwise raises [ValueError] for the duplicate parameter name:
    [Signature] refuses two parameters called "id". *)
Theorem inject_with_id_outcome
    (model : models.Model) (func : callable) (force_optional : bool) :
  PyDict.wf (models.fields_map model) →
  ((∀ field, ("id", field) ∈ models.fields_map model →
             ModelTyper.skipped field = true) →
   ModelTyper._inject_model_signature model func force_optional true
   = Ok {| body := body func;
           __signature__ :=
             Some (ModelTyper.parameters_at_135 model force_optional true) |})
  ∧ (∀ field, ("id", field) ∈ models.fields_map model →
              ModelTyper.skipped field = false →
     ModelTyper._inject_model_signature model func force_optional true
     = Raise (ValueError "duplicate parameter name: id")).
Proof.
  intros Hwf. unfold ModelTyper._inject_model_signature. split.
  - intros Hid. by rewrite Signature_with_id_ok.
  - intros field Hin Hs. by rewrite (Signature_with_id_duplicate _ _ field).
Qed.

Lemma inject_with_id_outcome_witness :
  PyDict.wf (models.fields_map Ledger)
  ∧ ("id", mk_field fields.IntField false false VNone None None)
      ∈ models.fields_map Ledger
  ∧ ModelTyper._inject_model_signature Ledger
      (def (Keywords (ModelTyper.edit Ledger))) true true
    = Raise (ValueError "duplicate parameter name: id")
  ∧ ∃ f, ModelTyper._inject_model_signature Task
           (def (Keywords (ModelTyper.edit Task))) true true = Ok f.
Proof.
  assert (("id", mk_field fields.IntField false false VNone None None)
            ∈ models.fields_map Ledger) as Hin by (cbn; in_list).
  split_and!; [apply Ledger_wf|exact Hin| |].
  - exact (proj2 (inject_with_id_outcome Ledger _ true Ledger_wf) _ Hin eq_refl).
  - eexists.
    exact (proj1 (inject_with_id_outcome Task _ true Task_wf) Task_id_skipped).
Defined.

(** X4: for a model without a retained field named "id", construction
    registers exactly five commands, in the order list, delete, show, create,
    edit, each with its handler and its help text built on the upper-cased
    model name; only create and edit carry an injected signature. *)
Theorem init_command_table (model : models.Model) :
  PyDict.wf (models.fields_map model) →
  (∀ field, ("id", field) ∈ models.fields_map model →
            ModelTyper.skipped field = true) →
  ModelTyper.__init__ (ModelClass model) = (Ok tt, command_table model).
Proof.
  intros Hwf Hid.
  unfold ModelTyper.__init__, ModelTyper._add_model_methods,
    ModelTyper._inject_model_signature.
  cbn [getattr___name__ issubclass_Model].
  rewrite Signature_without_id, Signature_with_id_ok by done.
  reflexivity.
Qed.

Lemma init_command_table_witness :
  PyDict.wf (models.fields_map Task)
  ∧ ∃ app, ModelTyper.__init__ (ModelClass Task) = (Ok tt, app)
      ∧ ((λ c, (command_name c, help c)) <$> app)
        = [("list", "List all TASK instances.");
           ("delete", "Delete a specific TASK instance.");
           ("show", "Show a specific TASK instance.");
           ("create", "Create a new TASK instance.");
           ("edit", "Edit an existing TASK instance.")].
Proof.
  split; [apply Task_wf|]. eexists. split.
  - apply (init_command_table Task Task_wf Task_id_skipped).
  - reflexivity.
Defined.

(** X5: for a model with a retained field named "id", construction raises
    the [ValueError] of the edit signature, after list, delete, show and
    create have been registered and before edit is. *)
Theorem init_duplicate_id_fails (model : models.Model) (field : fields.Field) :
  PyDict.wf (models.fields_map model) →
  ("id", field) ∈ models.fields_map model →
  ModelTyper.skipped field = false →
  ModelTyper.__init__ (ModelClass model)
  = (Raise (ValueError "duplicate parameter name: id"), take 4 (command_table model)).
Proof.
  intros Hwf Hin Hs.
  unfold ModelTyper.__init__, ModelTyper._add_model_methods,
    ModelTyper._inject_model_signature.
  cbn [getattr___name__ issubclass_Model].
  rewrite Signature_without_id by done.
  rewrite (Signature_with_id_duplicate _ _ field) by done.
  reflexivity.
Qed.

Lemma init_duplicate_id_fails_witness :
  PyDict.wf (models.fields_map Ledger)
  ∧ ("id", mk_field fields.IntField false false VNone None None)
      ∈ models.fields_map Ledger
  ∧ fst (ModelTyper.__init__ (ModelClass Ledger))
    = Raise (ValueError "duplicate parameter name: id")
  ∧ (command_name <$> snd (ModelTyper.__init__ (ModelClass Ledger)))
    = ["list"; "delete"; "show"; "create"].
Proof.
  assert (("id", mk_field fields.IntField false false VNone None None)
            ∈ models.fields_map Ledger) as Hin by (cbn; in_list).
  split_and!; [apply Ledger_wf|exact Hin|..];
    rewrite (init_duplicate_id_fails Ledger _ Ledger_wf Hin eq_refl); reflexivity.
Defined.

(** X6: whatever is passed that is not a model class, construction raises and
    registers no command at all: [TypeError] when the object has a
    [__name__], [AttributeError] when it has none. *)
Theorem init_non_model_registers_nothing (o : supplied) :
  (∀ m, o ≠ ModelClass m) →
  snd (ModelTyper.__init__ o) = []
  ∧ (∀ n, getattr___name__ o = Ok n →
          ∃ msg, fst (ModelTyper.__init__ o) = Raise (TypeError msg))
  ∧ ((∀ n, getattr___name__ o ≠ Ok n) →
     ∃ msg, fst (ModelTyper.__init__ o) = Raise (AttributeError msg)).
Proof.
  intros Hnot. destruct o as [m|n r|n|ty].
  - by destruct (Hnot m).
  - split_and!; [reflexivity|intros; cbn; eauto|].
    intros Hname. by destruct (Hname n).
  - split_and!; [reflexivity|intros; cbn; eauto|].
    intros Hname. by destruct (Hname n).
  - split_and!; [reflexivity|intros n; discriminate|].
    intros _. cbn. eauto.
Qed.

Lemma init_non_model_registers_nothing_witness :
  (snd (ModelTyper.__init__ (NamedObject "len")) = []
   ∧ getattr___name__ (NamedObject "len") = Ok "len"
   ∧ ∃ msg, fst (ModelTyper.__init__ (NamedObject "len")) = Raise (TypeError msg))
  ∧ (snd (ModelTyper.__init__ (PlainObject "int")) = []
     ∧ (∀ n, getattr___name__ (PlainObject "int") ≠ Ok n)
     ∧ ∃ msg, fst (ModelTyper.__init__ (PlainObject "int"))
              = Raise (AttributeError msg)).
Proof.
  assert (∀ n, getattr___name__ (PlainObject "int") ≠ Ok n) as Hnone
    by (intros n; discriminate).
  split.
  - destruct (init_non_model_registers_nothing (NamedObject "len"))
      as (Hnil & Hnamed & _); [intros m; discriminate|].
    split_and!; [exact Hnil|reflexivity|exact (Hnamed "len" eq_refl)].
  - destruct (init_non_model_registers_nothing (PlainObject "int"))
      as (Hnil & _ & Hplain); [intros m; discriminate|].
    split_and!; [exact Hnil|exact Hnone|exact (Hplain Hnone)].
Defined.

(** ** The handlers, continued *)

Lemma show_missing (model : models.Model) (name : string) (id : Z) (w : world) :
  store w !! id = None →
  ModelTyper.show model name id w
  = (Ok tt, evolve w (store w) (next_id w) [DbGet (VInt id)]
              [Panel "Error" "red" (name +:+ " with ID " +:+ pretty id +:+ " not found.")]).
Proof.
  intros Hnone. unfold ModelTyper.show, try_except_DoesNotExist, asyncio_run.
  unfold bind at 1. unfold bind at 1. rewrite (get_missing _ _ Hnone).
  unfold bind, error, _make_panel_printer, print, ret, evolve. cbn.
  by rewrite app_nil_r.
Qed.

Lemma show_found (model : models.Model) (name : string) (id : Z)
    (inst : instance) (w : world) :
  store w !! id = Some inst →
  ModelTyper.show model name id w
  = ModelTyper._show model inst (evolve w (store w) (next_id w) [DbGet (VInt id)] []).
Proof.
  intros Hsome. unfold ModelTyper.show, try_except_DoesNotExist, asyncio_run.
  unfold bind at 1. unfold bind at 1. by rewrite (get_found _ _ _ Hsome).
Qed.

Lemma delete_missing (model : models.Model) (name : string) (id : Z) (w : world) :
  store w !! id = None →
  ModelTyper.delete model name id w
  = (Ok tt, evolve w (store w) (next_id w) [DbGet (VInt id)]
              [Panel "Error" "red" (name +:+ " with ID " +:+ pretty id +:+ " not found.")]).
Proof.
  intros Hnone. unfold ModelTyper.delete, try_except_DoesNotExist, asyncio_run.
  unfold bind at 1. unfold bind at 1. rewrite (get_missing _ _ Hnone).
  unfold error, _make_panel_printer, print, evolve. cbn.
  by rewrite app_nil_r.
Qed.

Lemma delete_found (model : models.Model) (name : string) (id : Z)
    (inst : instance) (w : world) :
  store w !! id = Some inst → orm.instance_id inst = VInt id →
  ModelTyper.delete model name id w
  = (Ok tt, evolve w (base.delete id (store w)) (next_id w)
              [DbGet (VInt id); DbDelete (VInt id)]
              [Panel "Info" "white"
                 (name +:+ " with ID " +:+ pretty id +:+ " deleted successfully.")]).
Proof.
  intros Hsome Hid.
  unfold ModelTyper.delete, try_except_DoesNotExist, asyncio_run.
  unfold bind at 1. unfold bind at 1. rewrite (get_found _ _ _ Hsome).
  unfold orm.delete. rewrite Hid.
  unfold bind, log_call, set_store, info, _make_panel_printer, print, evolve.
  cbn. by rewrite !app_nil_r, <- app_assoc.
Qed.

Lemma pop_rest {V} (d args : PyDict.t V) (k : string) (v : V) :
  PyDict.wf d → PyDict.pop k d = Some (v, args) →
  PyDict.wf args ∧ ∀ x, x ∈ d → x.1 ≠ k → x ∈ args.
Proof.
  unfold PyDict.wf, PyDict.keys. revert args.
  induction d as [|[k' v'] d IH]; intros args Hwf Hpop; [discriminate|].
  rewrite fmap_cons in Hwf. apply NoDup_cons in Hwf as [Hnotin Hwf].
  cbn in Hpop. destruct (decide (k' = k)) as [->|Hne].
  - simplify_eq. split; [done|].
    intros x [->|Hx]%elem_of_cons Hk; [by destruct Hk|done].
  - destruct (PyDict.pop k d) as [[x rest]|] eqn:E; [|discriminate].
    simplify_eq. destruct (IH rest Hwf eq_refl) as [Hwf' Hsub]. split.
    + rewrite fmap_cons. apply NoDup_cons. split; [|done].
      intros (y & Hy1 & Hy)%list_elem_of_fmap. apply Hnotin.
      apply list_elem_of_fmap. exists y. split; [done|].
      clear -E Hy. revert rest E Hy.
      induction d as [|[k2 v2] d IHd]; intros rest E Hy; [discriminate|].
      cbn in E. destruct (decide (k2 = k)).
      * simplify_eq. by right.
      * destruct (PyDict.pop k d) as [[x2 rest2]|]; [|discriminate].
        simplify_eq. apply elem_of_cons in Hy as [->|Hy]; [by left|].
        right. by eapply IHd.
    + intros y [->|Hy]%elem_of_cons Hk; [by left|right; auto].
Qed.

Lemma pop_absent {V} (d : PyDict.t V) (k : string) :
  PyDict.get k d = None → PyDict.pop k d = None.
Proof.
  induction d as [|[k' v'] d IH]; [done|]. cbn.
  destruct (decide (k' = k)); [discriminate|]. intros H. by rewrite IH.
Qed.

Lemma for_items_not_key (items : PyDict.t py_value) (inst : instance) (k : string) :
  k ∉ PyDict.keys items → ModelTyper.for_items items inst !! k = inst !! k.
Proof.
  intros Hk. destruct (for_items_lookup items inst k) as [H|(v & Hin & _ & _)]; [done|].
  exfalso. apply Hk. unfold PyDict.keys. apply list_elem_of_fmap. by exists (k, v).
Qed.

(** In a dictionary every key is assigned once: the loop leaves under each
    key of its items the value given, unless that value is [None]. *)
Lemma for_items_supplied (items : PyDict.t py_value) (inst : instance)
    (k : string) (v : py_value) :
  PyDict.wf items → (k, v) ∈ items →
  ModelTyper.for_items items inst !! k = if is_None v then inst !! k else Some v.
Proof.
  unfold PyDict.wf, PyDict.keys. revert inst.
  induction items as [|[key value] rest IH]; intros inst Hwf Hin; [inversion Hin|].
  rewrite fmap_cons in Hwf. apply NoDup_cons in Hwf as [Hnotin Hwf].
  cbn [ModelTyper.for_items]. apply elem_of_cons in Hin as [Heq|Hin].
  - simplify_eq. destruct (is_None value).
    + by apply for_items_not_key.
    + rewrite for_items_not_key by done. apply lookup_insert_eq.
  - assert (key ≠ k) as Hne.
    { intros ->. apply Hnotin. apply list_elem_of_fmap. by exists (k, v). }
    destruct (is_None value); rewrite IH by done; [done|].
    destruct (is_None v); [|done]. by apply lookup_insert_ne.
Qed.

Lemma for_items_has_fields (model : models.Model) (items : PyDict.t py_value)
    (inst : instance) :
  has_fields model inst → has_fields model (ModelTyper.for_items items inst).
Proof.
  unfold has_fields. intros H. eapply Forall_impl; [exact H|]. intros k Hk. cbn.
  destruct (for_items_lookup items inst k) as [->|(v & _ & _ & ->)]; eauto.
Qed.

(** The whole run of [edit] on an existing instance. *)
Lemma edit_run (model : models.Model) (kwargs args : PyDict.t py_value) (id : Z)
    (inst : instance) (w : world) :
  PyDict.pop "id" kwargs = Some (VInt id, args) →
  "id" ∉ PyDict.keys args →
  store w !! id = Some inst →
  orm.instance_id inst = VInt id →
  has_fields model inst →
  ModelTyper.edit model kwargs w
  = (Ok tt, evolve w (<[id := ModelTyper.for_items args inst]> (store w)) (next_id w)
              [DbGet (VInt id); DbSave (VInt id)]
              [Panel "Info" "white" (rendering model (ModelTyper.for_items args inst))]).
Proof.
  intros Hpop Hnotin Hsome Hid Hfields.
  unfold ModelTyper.edit, asyncio_run, PyDict.copy. rewrite Hpop.
  unfold bind at 1. unfold bind at 1. unfold bind at 1.
  rewrite (get_found _ _ _ Hsome).
  unfold orm.save, orm.instance_id. rewrite for_items_not_key by done.
  unfold orm.instance_id in Hid. rewrite Hid.
  unfold bind, log_call, set_store, ret. cbn.
  rewrite (_show_complete _ _ _ (for_items_has_fields _ args _ Hfields)).
  unfold evolve. cbn. by rewrite <- ?app_assoc, ?app_nil_r.
Qed.

(** X7: [edit] on an existing instance returns normally; the instance it
    saves and shows holds, under every supplied key other than "id", the
    supplied value, or the stored value where [None] was supplied (the flag
    was omitted). *)
Theorem edit_overwrites_supplied_fields
    (model : models.Model) (kwargs : PyDict.t py_value) (id : Z)
    (inst : instance) (w : world) :
  PyDict.wf kwargs →
  PyDict.get "id" kwargs = Some (VInt id) →
  store w !! id = Some inst →
  orm.instance_id inst = VInt id →
  has_fields model inst →
  ∃ inst',
    ModelTyper.edit model kwargs w
    = (Ok tt, evolve w (<[id := inst']> (store w)) (next_id w)
                [DbGet (VInt id); DbSave (VInt id)]
                [Panel "Info" "white" (rendering model inst')])
    ∧ ∀ k v, (k, v) ∈ kwargs → k ≠ "id" →
        inst' !! k = if is_None v then inst !! k else Some v.
Proof.
  intros Hwf Hget Hsome Hid Hfields.
  destruct (pop_wf kwargs "id" (VInt id) Hwf Hget) as (args & Hpop & Hnotin & _).
  destruct (pop_rest kwargs args "id" (VInt id) Hwf Hpop) as [Hwf' Hsub].
  exists (ModelTyper.for_items args inst). split.
  - by apply edit_run.
  - intros k v Hin Hk. apply for_items_supplied; [done|].
    by apply (Hsub (k, v)).
Qed.

Lemma task1_has_fields : has_fields Task task1.
Proof.
  unfold has_fields. cbn. repeat constructor; eexists; vm_compute; reflexivity.
Qed.

Lemma edit_overwrites_supplied_fields_witness :
  PyDict.wf [("id", VInt 1); ("title", VNone); ("done", VBool true)]
  ∧ store one_task !! 1 = Some task1
  ∧ has_fields Task task1
  ∧ ∃ inst',
      fst (ModelTyper.edit Task
             [("id", VInt 1); ("title", VNone); ("done", VBool true)] one_task)
      = Ok tt
      ∧ store (snd (ModelTyper.edit Task
                      [("id", VInt 1); ("title", VNone); ("done", VBool true)]
                      one_task)) = <[1 := inst']> (store one_task)
      ∧ inst' !! "title" = Some (VStr "buy milk")
      ∧ inst' !! "done" = Some (VBool true).
Proof.
  assert (PyDict.wf [("id", VInt 1); ("title", VNone); ("done", VBool true)]) as Hwf
    by by_decide.
  split_and!; [exact Hwf|reflexivity|apply task1_has_fields|].
  destruct (edit_overwrites_supplied_fields Task
              [("id", VInt 1); ("title", VNone); ("done", VBool true)]
              1 task1 one_task Hwf eq_refl eq_refl eq_refl task1_has_fields)
    as (inst' & Hrun & Hattr).
  exists inst'. rewrite Hrun. split_and!; [reflexivity|reflexivity| |].
  - rewrite (Hattr "title" VNone); [reflexivity|in_list|discriminate].
  - rewrite (Hattr "done" (VBool true)); [reflexivity|in_list|discriminate].
Defined.

(** X10: [edit] called without an "id" entry raises [KeyError] at the [pop],
    before any persistence call and before anything is printed. *)
Theorem edit_without_id_raises_KeyError
    (model : models.Model) (kwargs : PyDict.t py_value) (w : world) :
  PyDict.get "id" kwargs = None →
  ModelTyper.edit model kwargs w = (Raise (KeyError "id"), w).
Proof.
  intros Hget. unfold ModelTyper.edit, asyncio_run, PyDict.copy.
  by rewrite (pop_absent _ _ Hget).
Qed.

Lemma edit_without_id_raises_KeyError_witness :
  PyDict.get "id" [("title", VStr "x")] = None
  ∧ ModelTyper.edit Task [("title", VStr "x")] one_task = (Raise (KeyError "id"), one_task).
Proof.
  split; [reflexivity|].
  apply (edit_without_id_raises_KeyError Task [("title", VStr "x")] one_task).
  reflexivity.
Defined.

(** X12: once [delete] has removed an instance, [show] and a second [delete]
    of the same identifier both print the not-found panel, and the second
    [delete] issues no [delete()] call. *)
Theorem delete_then_not_found
    (model : models.Model) (id : Z) (inst : instance) (w : world) :
  store w !! id = Some inst →
  orm.instance_id inst = VInt id →
  let w' := snd (ModelTyper.delete model (MODEL model) id w) in
  ModelTyper.show model (MODEL model) id w'
  = (Ok tt, evolve w' (store w') (next_id w') [DbGet (VInt id)]
              [Panel "Error" "red"
                 (MODEL model +:+ " with ID " +:+ pretty id +:+ " not found.")])
  ∧ ModelTyper.delete model (MODEL model) id w'
    = (Ok tt, evolve w' (store w') (next_id w') [DbGet (VInt id)]
                [Panel "Error" "red"
                   (MODEL model +:+ " with ID " +:+ pretty id +:+ " not found.")]).
Proof.
  intros Hsome Hid w'. subst w'.
  rewrite (delete_found _ _ _ _ _ Hsome Hid). cbn [snd].
  split; [apply show_missing|apply delete_missing]; apply lookup_delete_eq.
Qed.

Lemma delete_then_not_found_witness :
  store one_task !! 1 = Some task1
  ∧ orm.instance_id task1 = VInt 1
  ∧ console (snd (ModelTyper.delete Task (MODEL Task) 1
                    (snd (ModelTyper.delete Task (MODEL Task) 1 one_task))))
    = [Panel "Info" "white" "TASK with ID 1 deleted successfully.";
       Panel "Error" "red" "TASK with ID 1 not found."].
Proof.
  split_and!; [reflexivity|reflexivity|].
  rewrite (proj2 (delete_then_not_found Task 1 task1 one_task eq_refl eq_refl)).
  cbn [snd evolve console].
  rewrite (delete_found Task _ 1 task1 one_task eq_refl eq_refl).
  reflexivity.
Defined.

Lemma mapM_getattr_outcome (inst : instance) (keys : list string) w :
  (∃ lines, fst (mapM (λ field, let* v := ModelTyper.getattr inst field in
                                ret ("* " +:+ field +:+ ": " +:+ py_str v)) keys w)
            = Ok lines)
  ∨ (∃ msg, fst (mapM (λ field, let* v := ModelTyper.getattr inst field in
                                ret ("* " +:+ field +:+ ": " +:+ py_str v)) keys w)
            = Raise (AttributeError msg)).
Proof.
  induction keys as [|field keys IH]; [left; by eexists|].
  cbn [mapM]. destruct (inst !! field) as [v|] eqn:Hv.
  - rewrite (bind_Ok _ _ w ("* " +:+ field +:+ ": " +:+ py_str v) w)
      by (unfold bind, ModelTyper.getattr; by rewrite Hv).
    unfold bind at 1. unfold bind at 2.
    destruct (mapM _ keys w) as [[bs|e] w'] eqn:E; cbn in *.
    + left. by eexists.
    + right. destruct IH as [[? ?]|[msg ->]]; [discriminate|by eexists].
  - right. eexists.
    rewrite (bind_Raise _ _ w (AttributeError ("object has no attribute '" +:+ field +:+ "'")) w);
      [done|]. unfold bind, ModelTyper.getattr. by rewrite Hv.
Qed.

(** [_show] leaves the store, the id counter and the persistence trace alone,
    and raises nothing but [AttributeError]. *)
Lemma _show_outcome (model : models.Model) (inst : instance) w :
  store (snd (ModelTyper._show model inst w)) = store w
  ∧ next_id (snd (ModelTyper._show model inst w)) = next_id w
  ∧ db_log (snd (ModelTyper._show model inst w)) = db_log w
  ∧ (fst (ModelTyper._show model inst w) = Ok tt
     ∨ ∃ msg, fst (ModelTyper._show model inst w) = Raise (AttributeError msg)).
Proof.
  unfold ModelTyper._show, bind.
  pose proof (mapM_getattr_world inst (PyDict.keys (models.fields_map model)) w) as Hw.
  pose proof (mapM_getattr_outcome inst (PyDict.keys (models.fields_map model)) w) as Ho.
  destruct (mapM _ _ w) as [[bs|e] w']; cbn in *; subst.
  - split_and!; try done. by left.
  - split_and!; try done. right. destruct Ho as [[? ?]|[msg ?]]; [discriminate|].
    simplify_eq. by eexists.
Qed.

(** X13: [show] only reads: whatever the identifier and the world, it issues
    one [get] and no other persistence call, leaves the store untouched, and
    never lets [DoesNotExist] out. *)
Theorem show_is_read_only (model : models.Model) (name : string) (id : Z) (w : world) :
  store (snd (ModelTyper.show model name id w)) = store w
  ∧ next_id (snd (ModelTyper.show model name id w)) = next_id w
  ∧ db_log (snd (ModelTyper.show model name id w)) = db_log w ++ [DbGet (VInt id)]
  ∧ fst (ModelTyper.show model name id w) ≠ Raise DoesNotExist.
Proof.
  destruct (store w !! id) as [inst|] eqn:Hid.
  - rewrite (show_found _ _ _ _ _ Hid).
    destruct (_show_outcome model inst
                (evolve w (store w) (next_id w) [DbGet (VInt id)] []))
      as (-> & -> & -> & Hfst).
    split_and!; try reflexivity.
    destruct Hfst as [->|[msg ->]]; discriminate.
  - rewrite (show_missing _ _ _ _ Hid). split_and!; try reflexivity. discriminate.
Qed.

(** X14: when the instance lacks an attribute for some field of the model,
    [_show] raises [AttributeError] for the first such field and prints
    nothing: the lines are all built before the panel is printed. *)
Theorem show_renderer_missing_attribute
    (model : models.Model) (inst : instance) (before after : list string)
    (field : string) (w : world) :
  PyDict.keys (models.fields_map model) = before ++ field :: after →
  Forall (λ f, is_Some (inst !! f)) before →
  inst !! field = None →
  ModelTyper._show model inst w
  = (Raise (AttributeError ("object has no attribute '" +:+ field +:+ "'")), w).
Proof.
  intros Hkeys Hbefore Hnone. unfold ModelTyper._show. rewrite Hkeys.
  apply bind_Raise. clear Hkeys.
  induction Hbefore as [|f before [v Hv] _ IH]; cbn [app mapM].
  - apply bind_Raise. unfold bind, ModelTyper.getattr. by rewrite Hnone.
  - rewrite (bind_Ok _ _ w ("* " +:+ f +:+ ": " +:+ py_str v) w)
      by (unfold bind, ModelTyper.getattr; by rewrite Hv).
    by apply bind_Raise.
Qed.

Lemma show_renderer_missing_attribute_witness :
  PyDict.keys (models.fields_map Task) = ["id"; "title"] ++ "done" :: ["due"; "created"]
  ∧ ModelTyper._show Task {[ "id" := VInt 3; "title" := VStr "x" ]} one_task
    = (Raise (AttributeError "object has no attribute 'done'"), one_task).
Proof.
  split; [reflexivity|].
  apply (show_renderer_missing_attribute Task _ ["id"; "title"] ["due"; "created"] "done").
  - reflexivity.
  - repeat constructor; eexists; vm_compute; reflexivity.
  - vm_compute. reflexivity.
Defined.

(** ** [list] and [listing] *)

Lemma all_run (w : world) :
  orm.all w = (Ok (map_to_list (store w)).*2, evolve w (store w) (next_id w) [DbAll] []).
Proof. unfold orm.all, bind, log_call, evolve. cbn. by rewrite app_nil_r. Qed.

Lemma enumerate_rows {A} (str : A → string) (start : Z) (l : list A) :
  (λ '(i, a), (pretty i, str a)) <$> enumerate start l
  = imap (λ i a, (pretty (start + Z.of_nat i), str a)) l.
Proof.
  revert start. induction l as [|a l IH]; intros start; [done|].
  cbn [enumerate]. rewrite fmap_cons, imap_cons, IH. f_equal.
  - by rewrite Z.add_0_r.
  - apply imap_ext. intros i x _. cbn.
    by replace (start + 1 + Z.of_nat i) with (start + Z.of_nat (S i)) by lia.
Qed.

Lemma list_under_Deferred (model : models.Model) (name : string) (w : world) :
  ModelTyper.list_under Deferred model name w
  = match (map_to_list (store w)).*2 with
    | [] => warning ("No " +:+ name +:+ " instances found.")
    | instances => listing (models.__str__ model) name instances
    end (evolve w (store w) (next_id w) [DbAll] []).
Proof.
  unfold ModelTyper.list_under, asyncio_run. unfold bind at 1. cbn [ret].
  rewrite (bind_Ok _ _ _ _ _ (all_run w)).
  by destruct ((map_to_list (store w)).*2).
Qed.

(** X15: the handler [list] as registered, with annotations evaluated as the
    [def] runs, raises [TypeError] before any persistence call and prints
    nothing, whatever the store; with annotations deferred, on an empty store
    it issues one [all()] and prints only the warning panel
    "No <MODEL> instances found.". *)
Theorem list_empty_store (model : models.Model) (w : world) :
  ModelTyper.list model (MODEL model) w
  = (Raise (TypeError "'function' object is not subscriptable"), w)
  ∧ (store w = ∅ →
     ModelTyper.list_under Deferred model (MODEL model) w
     = (Ok tt, evolve w (store w) (next_id w) [DbAll]
                 [Panel "Warning" "yellow"
                    ("No " +:+ MODEL model +:+ " instances found.")])).
Proof.
  split; [reflexivity|].
  intros Hempty. rewrite list_under_Deferred, Hempty, map_to_list_empty.
  cbn. unfold warning, _make_panel_printer, print, evolve. cbn.
  by rewrite app_nil_r.
Qed.

Lemma list_empty_store_witness :
  store empty_world = ∅
  ∧ fst (ModelTyper.list Task (MODEL Task) empty_world)
    = Raise (TypeError "'function' object is not subscriptable")
  ∧ console (snd (ModelTyper.list_under Deferred Task (MODEL Task) empty_world))
    = [Panel "Warning" "yellow" "No TASK instances found."].
Proof.
  split_and!; [reflexivity| |].
  - rewrite (proj1 (list_empty_store Task empty_world)). reflexivity.
  - rewrite (proj2 (list_empty_store Task empty_world) eq_refl). reflexivity.
Defined.

(** X16: with annotations deferred, [list] on a store that holds instances
    issues one [all()] and prints one table titled with the model name, with a
    row per stored instance in fetch order: the i-th row carries the number i
    (from 1) and the instance's [str()]. *)
Theorem list_prints_numbered_table (model : models.Model) (w : world) :
  store w ≠ ∅ →
  ModelTyper.list_under Deferred model (MODEL model) w
  = (Ok tt, evolve w (store w) (next_id w) [DbAll]
              [Table (MODEL model)
                 (imap (λ i inst, (pretty (1 + Z.of_nat i), models.__str__ model inst))
                    (map_to_list (store w)).*2)])
  ∧ length (imap (λ i inst, (pretty (1 + Z.of_nat i), models.__str__ model inst))
              (map_to_list (store w)).*2) = size (store w).
Proof.
  intros Hne. split.
  - rewrite list_under_Deferred.
    destruct ((map_to_list (store w)).*2) as [|inst rest] eqn:E.
    + apply fmap_nil_inv in E. by apply map_to_list_empty_iff in E.
    + unfold listing, print, evolve. rewrite enumerate_rows. cbn.
      by rewrite app_nil_r.
  - by rewrite length_imap, length_fmap, length_map_to_list.
Qed.

Lemma list_prints_numbered_table_witness :
  store one_task ≠ ∅
  ∧ console (snd (ModelTyper.list_under Deferred Task (MODEL Task) one_task))
    = [Table "TASK" [("1", "<Task>")]].
Proof.
  assert (store one_task ≠ ∅) as Hne.
  { intros H. apply (f_equal (λ m, m !! 1)) in H. vm_compute in H. discriminate. }
  split; [exact Hne|].
  rewrite (proj1 (list_prints_numbered_table Task one_task Hne)).
  vm_compute. reflexivity.
Defined.

(** ** Signature and handler together *)


